(** * Property-Solution-App: store, invoice form, AI summary and PDF findings

    A shallow embedding of the parts of [src/App.tsx],
    [src/services/geminiService.ts] and [src/services/pdfGenerator.ts] that
    the specification's testable properties talk about.

    - JavaScript numbers are binary64 floats ([PrimFloat.float]).
    - Arrays are lists; [filter], [find], [push] and [flatMap] are the list
      functions of the same name.
    - [localStorage] is a record with one slot per key the application uses.
      A slot holds what the reader of that key makes of the stored text.
    - Host functions (the date reader, the text-generation service, jsPDF's
      text metrics) are Section variables. *)

From Stdlib Require Import ZArith String Ascii List PrimFloat Uint63.
From stdpp Require Import base list strings sorting pretty.

Open Scope string_scope.
Open Scope Z_scope.
Open Scope list_scope.

(** Decimal literals denote their closest binary64 value, as in JavaScript. *)
Set Warnings "-inexact-float".

(* ================================================================== *)
(** * Data model *)
(* ================================================================== *)

(** [types.ts] is not part of the sources: the types below follow section 3
    of the specification and the fields the code reads and writes. *)

(** Modelled from the spec: the status of an item, ['Pass' | 'Fail' | 'N/A']
    ([types.ts] is missing). *)
Inductive InspectionStatus := Pass | Fail | NA.

(** Modelled from the spec: the property type of an inspection ([types.ts]
    is missing). *)
Inductive PropertyType := Apartment | Villa | Building | Other.

(** Modelled from the spec: the type of a client's property ([types.ts] is
    missing). *)
Inductive PropertyKind := Residential | Commercial.

(** Modelled from the spec: the status of an invoice ([types.ts] is
    missing). *)
Inductive InvoiceStatus := Draft | Unpaid | Partial | Paid.

(** Modelled from the spec: the template selector of an invoice ([types.ts]
    is missing). *)
Inductive InvoiceTemplate := classic | modern | compact.

(** [===] on the enumerations. *)
Global Instance InspectionStatus_eq_dec : EqDecision InspectionStatus.
Proof. solve_decision. Defined.

Global Instance PropertyType_eq_dec : EqDecision PropertyType.
Proof. solve_decision. Defined.

Global Instance PropertyKind_eq_dec : EqDecision PropertyKind.
Proof. solve_decision. Defined.

Module InspectionPhoto.
(** Modelled from the spec: a photo: the base64 payload and the file name ([types.ts] is missing). *)
Record t := mk { base64 : string; name : string }.
End InspectionPhoto.

Module InspectionItem.
(** Modelled from the spec: a checklist item; its id is the number [Date.now()] gave ([types.ts] is missing). *)
Record t := mk {
  id : Z;
  category : string;
  point : string;
  status : InspectionStatus;
  comments : string;
  location : string;
  photos : list InspectionPhoto.t }.
End InspectionItem.

Module InspectionArea.
(** Modelled from the spec: an area with its items, in the order entered ([types.ts] is missing). *)
Record t := mk { id : Z; name : string; items : list InspectionItem.t }.
End InspectionArea.

Module InspectionData.
(** Modelled from the spec: an inspection; [aiSummary] is optional ([types.ts] is missing). *)
Record t := mk {
  id : string;
  clientName : string;
  propertyLocation : string;
  propertyType : PropertyType;
  inspectorName : string;
  inspectionDate : string;
  areas : list InspectionArea.t;
  aiSummary : option string }.

(** [{ ...inspection, aiSummary: v }] *)
Definition set_aiSummary (v : option string) (i : t) : t :=
  mk (id i) (clientName i) (propertyLocation i) (propertyType i)
     (inspectorName i) (inspectionDate i) (areas i) v.
End InspectionData.

Module Property.
(** Modelled from the spec: a property of a client; [size] is a number ([types.ts] is missing). *)
Record t := mk { id : string; location : string; type : PropertyKind; size : float }.
End Property.

Module Client.
(** Modelled from the spec: a client with its properties ([types.ts] is missing). *)
Record t := mk {
  id : string;
  name : string;
  email : string;
  phone : string;
  address : string;
  properties : list Property.t }.
End Client.

Module InvoiceServiceItem.
(** Modelled from the spec: a service line of an invoice ([types.ts] is missing). *)
Record t := mk {
  id : string;
  description : string;
  quantity : float;
  unitPrice : float;
  total : float }.

(** Copy-with-override, [{ ...service, field: v }]. *)
Definition set_id (v : string) (i : t) : t :=
  mk v (description i) (quantity i) (unitPrice i) (total i).
Definition set_description (v : string) (i : t) : t :=
  mk (id i) v (quantity i) (unitPrice i) (total i).
Definition set_quantity (v : float) (i : t) : t :=
  mk (id i) (description i) v (unitPrice i) (total i).
Definition set_unitPrice (v : float) (i : t) : t :=
  mk (id i) (description i) (quantity i) v (total i).
Definition set_total (v : float) (i : t) : t :=
  mk (id i) (description i) (quantity i) (unitPrice i) v.
End InvoiceServiceItem.

Module Invoice.
(** Modelled from the spec: an invoice; [notes] is optional ([types.ts] is missing). *)
Record t := mk {
  id : string;
  invoiceNumber : string;
  invoiceDate : string;
  dueDate : string;
  clientId : string;
  clientName : string;
  clientAddress : string;
  clientEmail : string;
  propertyLocation : string;
  services : list InvoiceServiceItem.t;
  subtotal : float;
  tax : float;
  totalAmount : float;
  amountPaid : float;
  status : InvoiceStatus;
  notes : option string;
  template : InvoiceTemplate }.

(** Copy-with-override, [{ ...inv, field: v }], one definition per field. *)
Definition set_id (v : string) (i : t) : t :=
  mk v (invoiceNumber i) (invoiceDate i) (dueDate i) (clientId i) (clientName i) (clientAddress i) (clientEmail i) (propertyLocation i) (services i) (subtotal i) (tax i) (totalAmount i) (amountPaid i) (status i) (notes i) (template i).
Definition set_invoiceNumber (v : string) (i : t) : t :=
  mk (id i) v (invoiceDate i) (dueDate i) (clientId i) (clientName i) (clientAddress i) (clientEmail i) (propertyLocation i) (services i) (subtotal i) (tax i) (totalAmount i) (amountPaid i) (status i) (notes i) (template i).
Definition set_invoiceDate (v : string) (i : t) : t :=
  mk (id i) (invoiceNumber i) v (dueDate i) (clientId i) (clientName i) (clientAddress i) (clientEmail i) (propertyLocation i) (services i) (subtotal i) (tax i) (totalAmount i) (amountPaid i) (status i) (notes i) (template i).
Definition set_dueDate (v : string) (i : t) : t :=
  mk (id i) (invoiceNumber i) (invoiceDate i) v (clientId i) (clientName i) (clientAddress i) (clientEmail i) (propertyLocation i) (services i) (subtotal i) (tax i) (totalAmount i) (amountPaid i) (status i) (notes i) (template i).
Definition set_clientId (v : string) (i : t) : t :=
  mk (id i) (invoiceNumber i) (invoiceDate i) (dueDate i) v (clientName i) (clientAddress i) (clientEmail i) (propertyLocation i) (services i) (subtotal i) (tax i) (totalAmount i) (amountPaid i) (status i) (notes i) (template i).
Definition set_clientName (v : string) (i : t) : t :=
  mk (id i) (invoiceNumber i) (invoiceDate i) (dueDate i) (clientId i) v (clientAddress i) (clientEmail i) (propertyLocation i) (services i) (subtotal i) (tax i) (totalAmount i) (amountPaid i) (status i) (notes i) (template i).
Definition set_clientAddress (v : string) (i : t) : t :=
  mk (id i) (invoiceNumber i) (invoiceDate i) (dueDate i) (clientId i) (clientName i) v (clientEmail i) (propertyLocation i) (services i) (subtotal i) (tax i) (totalAmount i) (amountPaid i) (status i) (notes i) (template i).
Definition set_clientEmail (v : string) (i : t) : t :=
  mk (id i) (invoiceNumber i) (invoiceDate i) (dueDate i) (clientId i) (clientName i) (clientAddress i) v (propertyLocation i) (services i) (subtotal i) (tax i) (totalAmount i) (amountPaid i) (status i) (notes i) (template i).
Definition set_propertyLocation (v : string) (i : t) : t :=
  mk (id i) (invoiceNumber i) (invoiceDate i) (dueDate i) (clientId i) (clientName i) (clientAddress i) (clientEmail i) v (services i) (subtotal i) (tax i) (totalAmount i) (amountPaid i) (status i) (notes i) (template i).
Definition set_services (v : list InvoiceServiceItem.t) (i : t) : t :=
  mk (id i) (invoiceNumber i) (invoiceDate i) (dueDate i) (clientId i) (clientName i) (clientAddress i) (clientEmail i) (propertyLocation i) v (subtotal i) (tax i) (totalAmount i) (amountPaid i) (status i) (notes i) (template i).
Definition set_subtotal (v : float) (i : t) : t :=
  mk (id i) (invoiceNumber i) (invoiceDate i) (dueDate i) (clientId i) (clientName i) (clientAddress i) (clientEmail i) (propertyLocation i) (services i) v (tax i) (totalAmount i) (amountPaid i) (status i) (notes i) (template i).
Definition set_tax (v : float) (i : t) : t :=
  mk (id i) (invoiceNumber i) (invoiceDate i) (dueDate i) (clientId i) (clientName i) (clientAddress i) (clientEmail i) (propertyLocation i) (services i) (subtotal i) v (totalAmount i) (amountPaid i) (status i) (notes i) (template i).
Definition set_totalAmount (v : float) (i : t) : t :=
  mk (id i) (invoiceNumber i) (invoiceDate i) (dueDate i) (clientId i) (clientName i) (clientAddress i) (clientEmail i) (propertyLocation i) (services i) (subtotal i) (tax i) v (amountPaid i) (status i) (notes i) (template i).
Definition set_amountPaid (v : float) (i : t) : t :=
  mk (id i) (invoiceNumber i) (invoiceDate i) (dueDate i) (clientId i) (clientName i) (clientAddress i) (clientEmail i) (propertyLocation i) (services i) (subtotal i) (tax i) (totalAmount i) v (status i) (notes i) (template i).
Definition set_status (v : InvoiceStatus) (i : t) : t :=
  mk (id i) (invoiceNumber i) (invoiceDate i) (dueDate i) (clientId i) (clientName i) (clientAddress i) (clientEmail i) (propertyLocation i) (services i) (subtotal i) (tax i) (totalAmount i) (amountPaid i) v (notes i) (template i).
Definition set_notes (v : option string) (i : t) : t :=
  mk (id i) (invoiceNumber i) (invoiceDate i) (dueDate i) (clientId i) (clientName i) (clientAddress i) (clientEmail i) (propertyLocation i) (services i) (subtotal i) (tax i) (totalAmount i) (amountPaid i) (status i) v (template i).
Definition set_template (v : InvoiceTemplate) (i : t) : t :=
  mk (id i) (invoiceNumber i) (invoiceDate i) (dueDate i) (clientId i) (clientName i) (clientAddress i) (clientEmail i) (propertyLocation i) (services i) (subtotal i) (tax i) (totalAmount i) (amountPaid i) (status i) (notes i) v.
End Invoice.

(** The strings the enumerations stand for in the source. *)
Definition PropertyType_text (t : PropertyType) : string :=
  match t with
  | Apartment => "Apartment"
  | Villa => "Villa"
  | Building => "Building"
  | Other => "Other"
  end.

Definition PropertyKind_text (k : PropertyKind) : string :=
  match k with Residential => "Residential" | Commercial => "Commercial" end.

Definition InspectionStatus_text (s : InspectionStatus) : string :=
  match s with Pass => "Pass" | Fail => "Fail" | NA => "N/A" end.

(* ================================================================== *)
(** * [Array.prototype.sort] *)
(* ================================================================== *)

(** A compare function returns a number; [None] stands for [NaN], which
    [sort] treats as [+0].  The model is a stable insertion sort: every
    conforming engine returns this list when the compare function is a
    consistent ordering (ECMAScript 2019 made [sort] stable).  With an
    inconsistent compare function the order is implementation-defined, so
    the statements about order below assume that every date can be read. *)
Section ArraySort.
Context {A : Type}.
Variable compareFn : A -> A -> option Z.

Definition comesAfter (y x : A) : bool :=
  match compareFn y x with
  | Some v => bool_decide (0 < v)
  | None => false
  end.

Fixpoint sortInsert (x : A) (sorted : list A) : list A :=
  match sorted with
  | [] => [x]
  | y :: rest =>
      if comesAfter y x then x :: y :: rest else y :: sortInsert x rest
  end.

Definition Array_sort (l : list A) : list A :=
  fold_left (fun acc x => sortInsert x acc) l [].

End ArraySort.

(* ================================================================== *)
(** * Local storage hooks ([App.tsx], lines 14-102) *)
(* ================================================================== *)

(** What a reader finds under a key.  [getItem] returns [null] for a key
    that was never written ([None] below).  Text that is the JSON of an
    array of records is represented by that array: a record survives
    [JSON.stringify] and [JSON.parse] unchanged when its numbers are finite
    (an inspection holds strings and integer ids only), which is what
    writing [Json l] for [setItem(key, JSON.stringify(l))] relies on.  Text
    that parses to something other than an array of records is outside the
    model, and so is a [setItem] that fails for lack of space. *)
Inductive Item (A : Type) :=
| Json (records : list A)
| EmptyText
| Malformed.
Arguments Json {A} records.
Arguments EmptyText {A}.
Arguments Malformed {A}.

Module localStorage.
Record t := mk {
  inspections : option (Item InspectionData.t);
  clients : option (Item Client.t);
  invoices : option (Item Invoice.t) }.

Definition setInspections (v : Item InspectionData.t) (s : t) : t :=
  mk (Some v) (clients s) (invoices s).
Definition setClients (v : Item Client.t) (s : t) : t :=
  mk (inspections s) (Some v) (invoices s).
Definition setInvoices (v : Item Invoice.t) (s : t) : t :=
  mk (inspections s) (clients s) (Some v).
End localStorage.

(** [JSON.parse(localStorage.getItem(key) || '[]')]: [None] when
    [JSON.parse] throws. *)
Definition parseOrEmpty {A} (item : option (Item A)) : option (list A) :=
  match item with
  | None => Some []
  | Some EmptyText => Some []
  | Some (Json l) => Some l
  | Some Malformed => None
  end.

(** The host's date reader, [new Date(text).getTime()]; [None] is [NaN] (an
    invalid date). *)
Class DateReader := Date_getTime : string -> option Z.

(** [constants.ts] is not part of the sources: the mock client list is a
    parameter. *)
Class MockData := MOCK_CLIENTS : list Client.t.

Section Hooks.
Context `{host_dates : !DateReader} `{host_mock : !MockData}.

(** [(a, b) => new Date(b.date).getTime() - new Date(a.date).getTime()] *)
Definition byDateDescending {A} (date : A -> string) (a b : A) : option Z :=
  match Date_getTime (date b), Date_getTime (date a) with
  | Some tb, Some ta => Some (tb - ta)
  | _, _ => None
  end.

(** The date of a record can be read. *)
Definition readable {A} (date : A -> string) (a : A) : Prop :=
  is_Some (Date_getTime (date a)).

(** [a] is dated no earlier than [b]. *)
Definition newestFirst {A} (date : A -> string) (a b : A) : Prop :=
  exists ta tb,
    Date_getTime (date a) = Some ta /\ Date_getTime (date b) = Some tb /\ tb <= ta.

(** ** useInspections *)

Definition getInspections (s : localStorage.t) : list InspectionData.t :=
  match parseOrEmpty (localStorage.inspections s) with
  | Some inspections =>
      Array_sort (byDateDescending InspectionData.inspectionDate) inspections
  | None => []
  end.

Definition getInspectionById (id : string) (s : localStorage.t)
  : option InspectionData.t :=
  let inspections := getInspections s in
  snd <$> list_find (fun insp => InspectionData.id insp = id) inspections.

Definition saveInspection (inspectionData : InspectionData.t)
  (s : localStorage.t) : localStorage.t :=
  let inspections :=
    filter (fun insp => InspectionData.id insp <> InspectionData.id inspectionData)
           (getInspections s) in
  let inspections := inspections ++ [inspectionData] in
  localStorage.setInspections (Json inspections) s.

Definition deleteInspection (id : string) (s : localStorage.t) : localStorage.t :=
  let inspections :=
    filter (fun insp => InspectionData.id insp <> id) (getInspections s) in
  localStorage.setInspections (Json inspections) s.

(** ** useClients *)

(** [getClients] may write the mock list, so it returns the storage too. *)
Definition getClients (s : localStorage.t) : list Client.t * localStorage.t :=
  match localStorage.clients s with
  | Some (Json clients) => (clients, s)
  | Some Malformed => ([], s)
  | Some EmptyText | None =>
      (MOCK_CLIENTS, localStorage.setClients (Json MOCK_CLIENTS) s)
  end.

Definition saveClient (clientData : Client.t) (s : localStorage.t)
  : localStorage.t :=
  let '(all, s) := getClients s in
  let clients := filter (fun c => Client.id c <> Client.id clientData) all in
  let clients := clients ++ [clientData] in
  localStorage.setClients (Json clients) s.

Definition deleteClient (id : string) (s : localStorage.t) : localStorage.t :=
  let '(all, s) := getClients s in
  let clients := filter (fun c => Client.id c <> id) all in
  localStorage.setClients (Json clients) s.

(** ** useInvoices *)

Definition getInvoices (s : localStorage.t) : list Invoice.t :=
  match parseOrEmpty (localStorage.invoices s) with
  | Some invoices => Array_sort (byDateDescending Invoice.invoiceDate) invoices
  | None => []
  end.

Definition getInvoiceById (id : string) (s : localStorage.t) : option Invoice.t :=
  snd <$> list_find (fun inv => Invoice.id inv = id) (getInvoices s).

Definition saveInvoice (invoiceData : Invoice.t) (s : localStorage.t)
  : localStorage.t :=
  let invoices :=
    filter (fun inv => Invoice.id inv <> Invoice.id invoiceData) (getInvoices s) in
  let invoices := invoices ++ [invoiceData] in
  localStorage.setInvoices (Json invoices) s.

Definition deleteInvoice (id : string) (s : localStorage.t) : localStorage.t :=
  let invoices := filter (fun inv => Invoice.id inv <> id) (getInvoices s) in
  localStorage.setInvoices (Json invoices) s.

(** ** InspectionsDashboard, line 885 *)

Definition filteredInspections (filter_ : string)
  (inspections : list InspectionData.t) : list InspectionData.t :=
  filter (fun insp => filter_ = "All" \/
                      PropertyType_text (InspectionData.propertyType insp) = filter_)
         inspections.

End Hooks.


(* ================================================================== *)
(** * InvoiceForm ([App.tsx], lines 1401-1618) *)
(* ================================================================== *)

(** The handlers act on the draft held by [useState<Invoice | null>]; the
    form (and with it every handler below) exists only once the draft is
    loaded, so they are modelled on a non-null draft.  [Date.now()] is an
    argument wherever an id is made from it. *)

Module InvoiceForm.

(** The literal [0.05] of line 1428: its closest binary64 value, in
    JavaScript as here. *)
Definition taxRate : float := 0.05%float.

(** The fields of an invoice with a value for each: the two arguments of
    [handleFieldChange (field, value)]. *)
Inductive FieldValue :=
| field_id (v : string)
| field_invoiceNumber (v : string)
| field_invoiceDate (v : string)
| field_dueDate (v : string)
| field_clientId (v : string)
| field_clientName (v : string)
| field_clientAddress (v : string)
| field_clientEmail (v : string)
| field_propertyLocation (v : string)
| field_services (v : list InvoiceServiceItem.t)
| field_subtotal (v : float)
| field_tax (v : float)
| field_totalAmount (v : float)
| field_amountPaid (v : float)
| field_status (v : InvoiceStatus)
| field_notes (v : option string)
| field_template (v : InvoiceTemplate).

(** The fields of a service line with a value for each: the last two
    arguments of [handleServiceChange (index, field, value)]. *)
Inductive ServiceFieldValue :=
| service_id (v : string)
| service_description (v : string)
| service_quantity (v : float)
| service_unitPrice (v : float)
| service_total (v : float).

(** The effect on [invoice?.services] (lines 1425-1431). *)
Definition recomputeTotals (invoice : Invoice.t) : Invoice.t :=
  let subtotal :=
    fold_left (fun acc item => (acc + InvoiceServiceItem.total item)%float)
              (Invoice.services invoice) 0%float in
  let tax := (subtotal * taxRate)%float in
  let totalAmount := (subtotal + tax)%float in
  Invoice.set_totalAmount totalAmount
    (Invoice.set_tax tax (Invoice.set_subtotal subtotal invoice)).

Definition handleFieldChange (fv : FieldValue) (inv : Invoice.t) : Invoice.t :=
  match fv with
  | field_id v => Invoice.set_id v inv
  | field_invoiceNumber v => Invoice.set_invoiceNumber v inv
  | field_invoiceDate v => Invoice.set_invoiceDate v inv
  | field_dueDate v => Invoice.set_dueDate v inv
  | field_clientId v => Invoice.set_clientId v inv
  | field_clientName v => Invoice.set_clientName v inv
  | field_clientAddress v => Invoice.set_clientAddress v inv
  | field_clientEmail v => Invoice.set_clientEmail v inv
  | field_propertyLocation v => Invoice.set_propertyLocation v inv
  | field_services v => Invoice.set_services v inv
  | field_subtotal v => Invoice.set_subtotal v inv
  | field_tax v => Invoice.set_tax v inv
  | field_totalAmount v => Invoice.set_totalAmount v inv
  | field_amountPaid v => Invoice.set_amountPaid v inv
  | field_status v => Invoice.set_status v inv
  | field_notes v => Invoice.set_notes v inv
  | field_template v => Invoice.set_template v inv
  end.

Definition handleClientChange (clients : list Client.t) (clientId : string)
  (inv : Invoice.t) : Invoice.t :=
  match snd <$> list_find (fun c => Client.id c = clientId) clients with
  | Some client =>
      Invoice.set_services []
        (Invoice.set_propertyLocation ""
          (Invoice.set_clientEmail (Client.email client)
            (Invoice.set_clientAddress (Client.address client)
              (Invoice.set_clientName (Client.name client)
                (Invoice.set_clientId (Client.id client) inv)))))
  | None => inv
  end.

Definition handlePropertySelect (now : Z) (property : Property.t)
  (inv : Invoice.t) : Invoice.t :=
  let rate :=
    match Property.type property with
    | Commercial => 2%float
    | Residential => 1%float
    end in
  let inspectionService :=
    InvoiceServiceItem.mk
      ("svc_" ++ pretty now)
      (PropertyKind_text (Property.type property) ++ " property inspection at "
         ++ Property.location property)
      (Property.size property)
      rate
      (Property.size property * rate)%float in
  Invoice.set_services [inspectionService]
    (Invoice.set_propertyLocation (Property.location property) inv).

(** [{ ...updatedServices[index], [field]: value }] *)
Definition setServiceField (fv : ServiceFieldValue)
  (service : InvoiceServiceItem.t) : InvoiceServiceItem.t :=
  match fv with
  | service_id v => InvoiceServiceItem.set_id v service
  | service_description v => InvoiceServiceItem.set_description v service
  | service_quantity v => InvoiceServiceItem.set_quantity v service
  | service_unitPrice v => InvoiceServiceItem.set_unitPrice v service
  | service_total v => InvoiceServiceItem.set_total v service
  end.

(** [field === 'quantity' || field === 'unitPrice'] *)
Definition isQuantityOrUnitPrice (fv : ServiceFieldValue) : bool :=
  match fv with
  | service_quantity _ | service_unitPrice _ => true
  | _ => false
  end.

(** The form calls this with the index of a rendered row only (line 1562
    maps over [invoice.services]); for an index past the end JavaScript
    would grow the array around a partial object, which the record type
    here cannot hold: [None]. *)
Definition handleServiceChange (index : nat) (fv : ServiceFieldValue)
  (invoice : Invoice.t) : option Invoice.t :=
  let updatedServices := Invoice.services invoice in
  match updatedServices !! index with
  | None => None
  | Some old =>
      let service := setServiceField fv old in
      let service :=
        if isQuantityOrUnitPrice fv
        then InvoiceServiceItem.set_total
               (InvoiceServiceItem.quantity service
                * InvoiceServiceItem.unitPrice service)%float service
        else service in
      let updatedServices := <[index := service]> updatedServices in
      Some (handleFieldChange (field_services updatedServices) invoice)
  end.

Definition addService (now : Z) (invoice : Invoice.t) : Invoice.t :=
  let newItem :=
    InvoiceServiceItem.mk ("svc_" ++ pretty now) "" 1%float 0%float 0%float in
  handleFieldChange (field_services (Invoice.services invoice ++ [newItem])) invoice.

(** [services.filter((_, i) => i !== index)] *)
Definition removeService (index : nat) (invoice : Invoice.t) : Invoice.t :=
  let kept :=
    filter (fun ix : nat * InvoiceServiceItem.t => ix.1 <> index)
           (imap (fun i x => (i, x)) (Invoice.services invoice)) in
  handleFieldChange (field_services (kept.*2)) invoice.

(** [invoice.totalAmount - invoice.amountPaid], the balance shown at line
    1606. *)
Definition balanceDue (invoice : Invoice.t) : float :=
  (Invoice.totalAmount invoice - Invoice.amountPaid invoice)%float.

(** What the service table lets the user do: the three inputs of a row
    (lines 1564-1566, the numbers read with [parseFloat]), its remove
    button (line 1568) and the add button (line 1574). *)
Inductive ServiceEvent :=
| DescriptionInput (index : nat) (value : string)
| QuantityInput (index : nat) (value : float)
| UnitPriceInput (index : nat) (value : float)
| RemoveClick (index : nat)
| AddLineItemClick (now : Z).

(** A row event comes from a row that is on screen. *)
Definition onScreen (e : ServiceEvent) (invoice : Invoice.t) : Prop :=
  match e with
  | DescriptionInput index _ | QuantityInput index _ | UnitPriceInput index _
  | RemoveClick index => (index < length (Invoice.services invoice))%nat
  | AddLineItemClick _ => True
  end.

Definition handle (e : ServiceEvent) (invoice : Invoice.t) : option Invoice.t :=
  match e with
  | DescriptionInput index value =>
      handleServiceChange index (service_description value) invoice
  | QuantityInput index value =>
      handleServiceChange index (service_quantity value) invoice
  | UnitPriceInput index value =>
      handleServiceChange index (service_unitPrice value) invoice
  | RemoveClick index => Some (removeService index invoice)
  | AddLineItemClick now => Some (addService now invoice)
  end.

(** One user action: the handler replaces [invoice.services] by a new
    array, React renders, and the effect recomputes the totals. *)
Definition step (e : ServiceEvent) (invoice : Invoice.t) : option Invoice.t :=
  recomputeTotals <$> handle e invoice.

(** [text.slice(-6)] *)
Definition lastSix (text : string) : string :=
  String.substring (String.length text - 6) 6 text.

(** The draft of a new invoice (lines 1409-1421), after the effect; [today]
    and [due] are the two dates computed from the clock. *)
Definition newInvoice (now : Z) (today due : string) : Invoice.t :=
  recomputeTotals
    (Invoice.mk ("inv_" ++ pretty now) ("INV-" ++ lastSix (pretty now)) today due
       "" "" "" "" "" [] 0%float 0%float 0%float 0%float Draft None classic).

End InvoiceForm.

(* ================================================================== *)
(** * AI gateway ([geminiService.ts]) and its caller ([App.tsx], 632-771) *)
(* ================================================================== *)

(** The text-generation service,
    [await ai.models.generateContent({ model, contents: prompt })], read as
    the text of the response, or [None] when the call throws. *)
Class TextService := generateContent : string -> option string.

Section Gemini.
Context `{host_ai : !TextService} `{host_dates : !DateReader}.

Definition newline : string := String (ascii_of_nat 10) "".

(** [text || fallback] on strings. *)
Definition orElse (text fallback : string) : string :=
  if decide (text = "") then fallback else text.

(** [array.join(separator)] *)
Fixpoint join (separator : string) (parts : list string) : string :=
  match parts with
  | [] => ""
  | [p] => p
  | p :: rest => (p ++ separator ++ join separator rest)%string
  end.

Definition summaryErrorText : string :=
  "Error: Could not generate AI summary. Please check the console for details.".

Definition summaryPrompt (failedItems : list InspectionItem.t) : string :=
  newline ++
  "    You are an AI assistant for a property inspector. Your task is to generate a concise, professional, and easy-to-understand summary of findings for a property inspection report." ++ newline ++
  "    Based on the following list of failed inspection points, create a summary." ++ newline ++
  "    - Group related issues together (e.g., all plumbing issues, all electrical issues)." ++ newline ++
  "    - Start with the most critical issues." ++ newline ++
  "    - Use clear headings and bullet points." ++ newline ++
  "    - The tone should be objective and informative." ++ newline ++
  newline ++
  "    Here are the failed items:" ++ newline ++
  "    " ++
  join newline
    (map (fun item =>
            ("- " ++ InspectionItem.category item ++ " - " ++ InspectionItem.point item
             ++ ": " ++ orElse (InspectionItem.comments item) "No comment."
             ++ " (Location: " ++ orElse (InspectionItem.location item) "General"
             ++ ")")%string)
         failedItems) ++ newline ++
  "  ".

Definition generateReportSummary (failedItems : list InspectionItem.t) : string :=
  let prompt := summaryPrompt failedItems in
  match generateContent prompt with
  | Some text => text
  | None => summaryErrorText
  end.

(** ** InspectionReport: the component's [inspection] state and the store *)

(** [inspection.areas.flatMap(area => area.items.filter(item =>
    item.status === 'Fail'))] *)
Definition failedItemsOf (inspection : InspectionData.t) : list InspectionItem.t :=
  flat_map (fun area =>
              filter (fun item => InspectionItem.status item = Fail)
                     (InspectionArea.items area))
           (InspectionData.areas inspection).

Definition handleGenerateSummary (inspection : option InspectionData.t)
  (s : localStorage.t) : option InspectionData.t * localStorage.t :=
  match inspection with
  | None => (None, s)
  | Some inspection =>
      let failedItems := failedItemsOf inspection in
      let summary := generateReportSummary failedItems in
      let updatedInspection :=
        InspectionData.set_aiSummary (Some summary) inspection in
      (Some updatedInspection, saveInspection updatedInspection s)
  end.

End Gemini.

(** Truthiness of the optional [aiSummary]. *)
Definition hasSummary (inspection : InspectionData.t) : bool :=
  match InspectionData.aiSummary inspection with
  | Some text => bool_decide (text <> "")
  | None => false
  end.

(** The "Executive Summary" block of the report page (lines 757-771): whether
    the generate button is rendered, and what stands below the title. *)
Inductive SummaryBody :=
| StoredSummary (text : string)
| GenerateHint.

Definition executiveSummary (inspection : InspectionData.t) : bool * SummaryBody :=
  (negb (hasSummary inspection),
   if hasSummary inspection
   then StoredSummary (default "" (InspectionData.aiSummary inspection))
   else GenerateHint).

(* ================================================================== *)
(** * jsPDF, as much of it as the report generator drives *)
(* ================================================================== *)

(** A document is the list of what was drawn, in drawing order; every
    drawing records the font, size, colours and opacity in force when it
    was made, which is how an immediate-mode surface fixes its look. *)
Module jsPDF.

Inductive FontName := helvetica | Amiri.

Inductive FontStyle := normal | bold.

Inductive Align := align_left | align_right.

Inductive PaintStyle := F | S.

Definition Color : Type := Z * Z * Z.

Record TextOptions := options {
  align : option Align;
  lang : option string;
  baseline : option string }.

Definition noOptions : TextOptions := options None None None.

Record GraphicsState := graphics {
  font : FontName;
  fontStyle : FontStyle;
  fontSize : float;
  textColor : Color;
  fillColor : Color;
  drawColor : Color;
  opacity : float;
  saved : list float }.

Inductive Drawing :=
| NewPage
| Text (lines : list string) (x y : float) (opts : TextOptions)
       (font : FontName) (style : FontStyle) (size : float) (color : Color)
| Rect (x y w h : float) (fill : Color)
| RoundedRect (x y w h rx ry : float) (style : PaintStyle) (fill draw : Color)
| Line (x1 y1 x2 y2 : float) (draw : Color)
| Image (data format : string) (x y w h : float) (opacity : float).

Record t := mk { state : GraphicsState; drawings : list Drawing }.

(** [new jsPDF(...)]: one empty page, the library's defaults. *)
Definition create : t :=
  mk (graphics helvetica normal 16%float (0, 0, 0) (0, 0, 0) (0, 0, 0) 1%float []) [].

Definition setFont (name : FontName) (style : FontStyle) (s : GraphicsState)
  : GraphicsState :=
  graphics name style (fontSize s) (textColor s) (fillColor s) (drawColor s)
           (opacity s) (saved s).

Definition setFontSize (size : float) (s : GraphicsState) : GraphicsState :=
  graphics (font s) (fontStyle s) size (textColor s) (fillColor s) (drawColor s)
           (opacity s) (saved s).

Definition setTextColor (c : Color) (s : GraphicsState) : GraphicsState :=
  graphics (font s) (fontStyle s) (fontSize s) c (fillColor s) (drawColor s)
           (opacity s) (saved s).

Definition setFillColor (c : Color) (s : GraphicsState) : GraphicsState :=
  graphics (font s) (fontStyle s) (fontSize s) (textColor s) c (drawColor s)
           (opacity s) (saved s).

Definition setDrawColor (c : Color) (s : GraphicsState) : GraphicsState :=
  graphics (font s) (fontStyle s) (fontSize s) (textColor s) (fillColor s) c
           (opacity s) (saved s).

Definition saveGraphicsState (s : GraphicsState) : GraphicsState :=
  graphics (font s) (fontStyle s) (fontSize s) (textColor s) (fillColor s)
           (drawColor s) (opacity s) (opacity s :: saved s).

(** [setGState(GState({ opacity }))] *)
Definition setGState (o : float) (s : GraphicsState) : GraphicsState :=
  graphics (font s) (fontStyle s) (fontSize s) (textColor s) (fillColor s)
           (drawColor s) o (saved s).

Definition restoreGraphicsState (s : GraphicsState) : GraphicsState :=
  graphics (font s) (fontStyle s) (fontSize s) (textColor s) (fillColor s)
           (drawColor s)
           (match saved s with o :: _ => o | [] => opacity s end)
           (tail (saved s)).

Definition text (lines : list string) (x y : float) (opts : TextOptions)
  (s : GraphicsState) : Drawing :=
  Text lines x y opts (font s) (fontStyle s) (fontSize s) (textColor s).

Definition rect (x y w h : float) (s : GraphicsState) : Drawing :=
  Rect x y w h (fillColor s).

Definition roundedRect (x y w h rx ry : float) (style : PaintStyle)
  (s : GraphicsState) : Drawing :=
  RoundedRect x y w h rx ry style (fillColor s) (drawColor s).

Definition line (x1 y1 x2 y2 : float) (s : GraphicsState) : Drawing :=
  Line x1 y1 x2 y2 (drawColor s).

Definition addImage (data format : string) (x y w h : float)
  (s : GraphicsState) : Drawing :=
  Image data format x y w h (opacity s).

End jsPDF.

(* ================================================================== *)
(** * WaslaReportGenerator ([pdfGenerator.ts]): the findings section *)
(* ================================================================== *)

(** [arabicRegex.test(text)], the regular expression being the range of
    code points U+0600 to U+06FF.  Strings are UTF-8 here: the code
    points U+0600 to U+06FF are exactly the two-byte sequences whose first
    byte is D8, D9, DA or DB, and no other sequence of well-formed UTF-8
    contains such a byte. *)
Definition arabicRegex_test (text : string) : bool :=
  existsb (fun c => let b := N_of_ascii c in (216 <=? b)%N && (b <=? 219)%N)
          (list_ascii_of_string text).

(** [text.toUpperCase()], on the ASCII letters; the generator applies it to
    the status names and to an upper-case title only. *)
Definition toUpperCase (text : string) : string :=
  string_of_list_ascii
    (map (fun c =>
            let b := N_of_ascii c in
            if (97 <=? b)%N && (b <=? 122)%N then ascii_of_N (b - 32) else c)
         (list_ascii_of_string text)).

(** A count or an index as a number. *)
Definition number (n : nat) : float := PrimFloat.of_uint63 (Uint63.of_nat n).

(** [photos.slice(i, i + 3)] for [i = 0, 3, 6, ...] *)
Fixpoint rowsOfThree {A} (l : list A) : list (list A) :=
  match l with
  | [] => []
  | [a] => [[a]]
  | [a; b] => [[a; b]]
  | a :: b :: c :: rest => [a; b; c] :: rowsOfThree rest
  end.

Module WaslaReportGenerator.

Record t := mk {
  pdf : jsPDF.t;
  currentY : float;
  logoBase64 : option string;
  watermarkBase64 : option string }.

(** A method is a function of the generator that returns a value and the
    generator after it, or [None] when an exception leaves it. *)
Definition M (A : Type) : Type := t -> option (A * t).

Global Instance M_ret : MRet M := fun A a g => Some (a, g).

Global Instance M_bind : MBind M := fun A B k m g =>
  match m g with
  | Some (a, g') => k a g'
  | None => None
  end.

(** Read something off [this]. *)
Definition reads {A} (h : t -> A) : M A := fun g => Some (h g, g).

(** A call on [this.pdf] that changes the graphics state. *)
Definition restyle (f : jsPDF.GraphicsState -> jsPDF.GraphicsState) : M unit :=
  fun g =>
    Some (tt, mk (jsPDF.mk (f (jsPDF.state (pdf g))) (jsPDF.drawings (pdf g)))
                 (currentY g) (logoBase64 g) (watermarkBase64 g)).

(** A call on [this.pdf] that draws, in the graphics state in force. *)
Definition draw (d : jsPDF.GraphicsState -> jsPDF.Drawing) : M unit :=
  fun g =>
    Some (tt, mk (jsPDF.mk (jsPDF.state (pdf g))
                           (jsPDF.drawings (pdf g) ++ [d (jsPDF.state (pdf g))]))
                 (currentY g) (logoBase64 g) (watermarkBase64 g)).

(** [this.currentY = y] *)
Definition setY (y : float) : M unit :=
  fun g => Some (tt, mk (pdf g) y (logoBase64 g) (watermarkBase64 g)).

(** [this.currentY += dy] *)
Definition addY (dy : float) : M unit :=
  fun g => Some (tt, mk (pdf g) (currentY g + dy)%float (logoBase64 g)
                        (watermarkBase64 g)).

Definition getY : M float := reads currentY.

Definition throw {A} : M A := fun _ => None.

(** [try { body } catch (error) { console.warn(...) }] *)
Definition tryOrWarn (body : M unit) : M unit := fun g =>
  match body g with
  | Some r => Some r
  | None => Some (tt, g)
  end.

Definition when (b : bool) (body : M unit) : M unit :=
  if b then body else mret tt.

(** [for (const x of l) body(x)] and [l.forEach((x, j) => body(j, x))] *)
Fixpoint forOf {A} (l : list A) (body : A -> M unit) : M unit :=
  match l with
  | [] => mret tt
  | x :: rest => body x ;; forOf rest body
  end.

Definition forEach {A} (l : list A) (body : nat -> A -> M unit) : M unit :=
  forOf (imap (fun j x => (j, x)) l) (fun jx => body jx.1 jx.2).

(** [new WaslaReportGenerator()], then [initialize()] with the two images
    it could fetch. *)
Definition create (logo watermark : option string) : t :=
  mk jsPDF.create 25%float logo watermark.

(** What the generator asks of jsPDF besides drawing: the page size of the
    document, the text metrics in a given font, style and size, and whether
    [addImage] can decode the data it is given (it throws when it
    cannot). *)
Class Surface := {
  pageWidth : float;
  pageHeight : float;
  splitTextToSize :
    jsPDF.FontName -> jsPDF.FontStyle -> float -> string -> float -> list string;
  getTextWidth : jsPDF.FontName -> jsPDF.FontStyle -> float -> string -> float;
  decodes : string -> bool }.

Section Methods.
Context `{surface : !Surface}.

Definition margins_top : float := 25%float.
Definition margins_right : float := 15%float.
Definition margins_bottom : float := 25%float.
Definition margins_left : float := 15%float.
Definition contentWidth : float := (pageWidth - margins_left - margins_right)%float.

Definition pdf_splitTextToSize (text : string) (width : float) : M (list string) :=
  reads (fun g =>
    let s := jsPDF.state (pdf g) in
    splitTextToSize (jsPDF.font s) (jsPDF.fontStyle s) (jsPDF.fontSize s) text width).

Definition pdf_getTextWidth (text : string) : M float :=
  reads (fun g =>
    let s := jsPDF.state (pdf g) in
    getTextWidth (jsPDF.font s) (jsPDF.fontStyle s) (jsPDF.fontSize s) text).

Definition pdf_addImage (data format : string) (x y w h : float) : M unit :=
  if decodes data then draw (jsPDF.addImage data format x y w h) else throw.

Definition setEnglishFont (style : jsPDF.FontStyle) : M unit :=
  restyle (jsPDF.setFont jsPDF.helvetica style).

Definition setArabicFont (style : jsPDF.FontStyle) : M unit :=
  restyle (jsPDF.setFont jsPDF.Amiri style).

Definition addWatermark : M unit :=
  watermark ← reads watermarkBase64;
  match watermark with
  | Some watermarkBase64 =>
      let watermarkSize := 90%float in
      restyle jsPDF.saveGraphicsState;;
      restyle (jsPDF.setGState 0.08%float);;
      pdf_addImage watermarkBase64 "PNG"
        ((pageWidth - watermarkSize) / 2)%float
        ((pageHeight - watermarkSize) / 2)%float
        watermarkSize watermarkSize;;
      restyle jsPDF.restoreGraphicsState
  | None => mret tt
  end.

Definition addPage : M unit :=
  draw (fun _ => jsPDF.NewPage);;
  addWatermark;;
  setY margins_top.

Definition checkPageBreak (requiredSpace : float) : M bool :=
  y ← getY;
  if (pageHeight - margins_bottom <? y + requiredSpace)%float
  then addPage;; mret true
  else mret false.

Definition addSectionHeader (englishTitle arabicTitle : string) : M unit :=
  checkPageBreak 15%float;;
  let headerHeight := 10%float in
  restyle (jsPDF.setFillColor (241, 245, 249));;
  y ← getY;
  draw (jsPDF.rect margins_left y contentWidth headerHeight);;
  restyle (jsPDF.setFillColor (37, 99, 235));;
  y ← getY;
  draw (jsPDF.rect margins_left y 1.5%float headerHeight);;
  restyle (jsPDF.setFontSize 12%float);;
  setEnglishFont jsPDF.bold;;
  restyle (jsPDF.setTextColor (30, 41, 59));;
  y ← getY;
  draw (jsPDF.text [toUpperCase englishTitle] (margins_left + 5)%float
          (y + headerHeight / 2)%float
          (jsPDF.options None None (Some "middle")));;
  setArabicFont jsPDF.bold;;
  y ← getY;
  draw (jsPDF.text [arabicTitle] (pageWidth - margins_right - 3)%float
          (y + headerHeight / 2)%float
          (jsPDF.options (Some jsPDF.align_right) (Some "ar") (Some "middle")));;
  restyle (jsPDF.setTextColor (0, 0, 0));;
  addY (headerHeight + 5)%float.

Definition addPhotos (photos : list InspectionPhoto.t) : M unit :=
  let photosPerRow := 3%float in
  let gap := 3%float in
  let photoContainerWidth := (contentWidth - 12)%float in
  let photoWidth :=
    ((photoContainerWidth - ((photosPerRow - 1) * gap)) / photosPerRow)%float in
  let photoHeight := (photoWidth * 0.75)%float in
  forOf (rowsOfThree photos) (fun rowPhotos =>
    checkPageBreak (photoHeight + 5)%float;;
    forEach rowPhotos (fun j photo =>
      let x := (margins_left + 6 + number j * (photoWidth + gap))%float in
      when (bool_decide (InspectionPhoto.base64 photo <> ""))
        (tryOrWarn
           (y ← getY;
            pdf_addImage ("data:image/jpeg;base64," ++ InspectionPhoto.base64 photo)
                         "JPEG" x y photoWidth photoHeight)));;
    addY (photoHeight + gap)%float).

(** [statusColors[item.status] || [0, 0, 0]] and [statusBgColors[item.status]] *)
Definition statusColors (s : InspectionStatus) : jsPDF.Color :=
  match s with
  | Pass => (22, 101, 52)
  | Fail => (153, 27, 27)
  | NA => (51, 65, 85)
  end.

Definition statusBgColors (s : InspectionStatus) : jsPDF.Color :=
  match s with
  | Pass => (220, 252, 231)
  | Fail => (254, 226, 226)
  | NA => (226, 232, 240)
  end.

(** [{ align: arabic ? 'right' : 'left', lang: arabic ? 'ar' : undefined }] *)
Definition directed (arabic : bool) : jsPDF.TextOptions :=
  jsPDF.options (Some (if arabic then jsPDF.align_right else jsPDF.align_left))
                (if arabic then Some "ar" else None) None.

Definition addInspectionItem (item : InspectionItem.t) : M unit :=
  itemStartY ← getY;
  checkPageBreak 30%float;;
  (* status badge size *)
  setEnglishFont jsPDF.bold;;
  restyle (jsPDF.setFontSize 8%float);;
  let statusText := toUpperCase (InspectionStatus_text (InspectionItem.status item)) in
  w ← pdf_getTextWidth statusText;
  let statusWidth := (w + 8)%float in
  let statusX := (pageWidth - margins_right - statusWidth - 2)%float in
  (* title *)
  let titleAvailableWidth := (contentWidth - statusWidth - 10)%float in
  let itemTitle := orElse (InspectionItem.point item) "Inspection Point" in
  let isTitleArabic := arabicRegex_test itemTitle in
  (if isTitleArabic then setArabicFont jsPDF.bold else setEnglishFont jsPDF.bold);;
  restyle (jsPDF.setFontSize 11%float);;
  itemTitleLines ← pdf_splitTextToSize itemTitle titleAvailableWidth;
  let titleX := if isTitleArabic then (statusX - 5)%float
                else (margins_left + 2)%float in
  y ← getY;
  draw (jsPDF.text itemTitleLines titleX (y + 4)%float (directed isTitleArabic));;
  (* status badge *)
  let color := statusColors (InspectionItem.status item) in
  let bgColor := statusBgColors (InspectionItem.status item) in
  restyle (jsPDF.setFillColor bgColor);;
  y ← getY;
  draw (jsPDF.roundedRect statusX y statusWidth 6%float 2%float 2%float jsPDF.F);;
  restyle (jsPDF.setTextColor color);;
  setEnglishFont jsPDF.bold;;
  restyle (jsPDF.setFontSize 8%float);;
  y ← getY;
  draw (jsPDF.text [statusText] (statusX + 4)%float (y + 4)%float jsPDF.noOptions);;
  restyle (jsPDF.setTextColor (0, 0, 0));;
  let titleHeight := (number (length itemTitleLines) * 5)%float in
  addY (titleHeight + 4)%float;;
  (* details *)
  let hasLocation := bool_decide (InspectionItem.location item <> "") in
  let hasComments := bool_decide (InspectionItem.comments item <> "") in
  let hasDetails := hasLocation || hasComments in
  let detailIndent := (margins_left + 4)%float in
  let detailWidth := (contentWidth - 8)%float in
  when hasDetails
    (addY 2%float;;
     restyle (jsPDF.setDrawColor (226, 232, 240));;
     y ← getY;
     draw (jsPDF.line (margins_left + 2)%float y
                      (pageWidth - margins_right - 2)%float y);;
     addY 4%float;;
     setEnglishFont jsPDF.normal;;
     restyle (jsPDF.setFontSize 9%float);;
     when hasLocation
       (checkPageBreak 5%float;;
        setEnglishFont jsPDF.bold;;
        y ← getY;
        draw (jsPDF.text ["Location:"] detailIndent y jsPDF.noOptions);;
        let isLocationArabic := arabicRegex_test (InspectionItem.location item) in
        (if isLocationArabic then setArabicFont jsPDF.normal
         else setEnglishFont jsPDF.normal);;
        let availableWidth := (detailWidth - 18)%float in
        locText ← pdf_splitTextToSize (InspectionItem.location item) availableWidth;
        let textX := if isLocationArabic
                     then (detailIndent + 18 + availableWidth)%float
                     else (detailIndent + 18)%float in
        y ← getY;
        draw (jsPDF.text locText textX y (directed isLocationArabic));;
        addY (number (length locText) * 4)%float);;
     when hasComments
       (checkPageBreak 5%float;;
        setEnglishFont jsPDF.bold;;
        y ← getY;
        draw (jsPDF.text ["Comments:"] detailIndent y jsPDF.noOptions);;
        let isCommentsArabic := arabicRegex_test (InspectionItem.comments item) in
        (if isCommentsArabic then setArabicFont jsPDF.normal
         else setEnglishFont jsPDF.normal);;
        let availableWidth := (detailWidth - 20)%float in
        comText ← pdf_splitTextToSize (InspectionItem.comments item) availableWidth;
        let textX := if isCommentsArabic
                     then (detailIndent + 20 + availableWidth)%float
                     else (detailIndent + 20)%float in
        y ← getY;
        draw (jsPDF.text comText textX y (directed isCommentsArabic));;
        addY (number (length comText) * 4)%float));;
  let hasPhotos := bool_decide (InspectionItem.photos item <> []) in
  when hasPhotos
    (addY (if hasDetails then 2%float else 4%float);;
     addPhotos (InspectionItem.photos item));;
  (* background of the card, painted once its height is known *)
  y ← getY;
  let itemEndY := (y + 2)%float in
  restyle (jsPDF.setFillColor (248, 250, 252));;
  draw (jsPDF.roundedRect margins_left (itemStartY - 2)%float contentWidth
          (itemEndY - itemStartY + 2)%float 3%float 3%float jsPDF.F);;
  (* the content again, on top of the background *)
  setY itemStartY;;
  y ← getY;
  draw (jsPDF.text itemTitleLines titleX (y + 4)%float (directed isTitleArabic));;
  restyle (jsPDF.setFillColor bgColor);;
  y ← getY;
  draw (jsPDF.roundedRect statusX y statusWidth 6%float 2%float 2%float jsPDF.F);;
  restyle (jsPDF.setTextColor color);;
  y ← getY;
  draw (jsPDF.text [statusText] (statusX + 4)%float (y + 4)%float jsPDF.noOptions);;
  restyle (jsPDF.setTextColor (0, 0, 0));;
  addY (titleHeight + 4)%float;;
  when hasDetails
    (addY 6%float;;
     when hasLocation
       (setEnglishFont jsPDF.bold;;
        y ← getY;
        draw (jsPDF.text ["Location:"] detailIndent y jsPDF.noOptions);;
        let isLocationArabic := arabicRegex_test (InspectionItem.location item) in
        (if isLocationArabic then setArabicFont jsPDF.normal
         else setEnglishFont jsPDF.normal);;
        let availableWidth := (detailWidth - 18)%float in
        locText ← pdf_splitTextToSize (InspectionItem.location item) availableWidth;
        let textX := if isLocationArabic
                     then (detailIndent + 18 + availableWidth)%float
                     else (detailIndent + 18)%float in
        y ← getY;
        draw (jsPDF.text locText textX y (directed isLocationArabic));;
        addY (number (length locText) * 4)%float);;
     when hasComments
       (setEnglishFont jsPDF.bold;;
        y ← getY;
        draw (jsPDF.text ["Comments:"] detailIndent y jsPDF.noOptions);;
        let isCommentsArabic := arabicRegex_test (InspectionItem.comments item) in
        (if isCommentsArabic then setArabicFont jsPDF.normal
         else setEnglishFont jsPDF.normal);;
        let availableWidth := (detailWidth - 20)%float in
        comText ← pdf_splitTextToSize (InspectionItem.comments item) availableWidth;
        let textX := if isCommentsArabic
                     then (detailIndent + 20 + availableWidth)%float
                     else (detailIndent + 20)%float in
        y ← getY;
        draw (jsPDF.text comText textX y (directed isCommentsArabic));;
        addY (number (length comText) * 4)%float));;
  when hasPhotos
    (addY (if hasDetails then 2%float else 4%float);;
     addPhotos (InspectionItem.photos item));;
  setY (itemEndY + 3)%float.

Definition addAreaSection (area : InspectionArea.t) : M unit :=
  checkPageBreak 20%float;;
  let isAreaNameArabic := arabicRegex_test (InspectionArea.name area) in
  (if isAreaNameArabic then setArabicFont jsPDF.bold else setEnglishFont jsPDF.bold);;
  restyle (jsPDF.setFontSize 14%float);;
  restyle (jsPDF.setTextColor (37, 99, 235));;
  let textX := if isAreaNameArabic then (pageWidth - margins_right)%float
               else margins_left in
  y ← getY;
  draw (jsPDF.text [InspectionArea.name area] textX y (directed isAreaNameArabic));;
  addY 6%float;;
  restyle (jsPDF.setDrawColor (59, 130, 246));;
  y ← getY;
  draw (jsPDF.line margins_left y (pageWidth - margins_right)%float y);;
  addY 8%float;;
  restyle (jsPDF.setTextColor (0, 0, 0));;
  forOf (InspectionArea.items area) addInspectionItem.

Definition noItemsText : string :=
  "No inspection items were recorded for this property.".

Definition addInspectionDetails (inspection : InspectionData.t) : M unit :=
  addPage;;
  addSectionHeader "INSPECTION FINDINGS" "نتائج الفحص";;
  if bool_decide (InspectionData.areas inspection <> [])
  then
    forOf (InspectionData.areas inspection) (fun area =>
      when (bool_decide (InspectionArea.items area <> []))
           (addAreaSection area))
  else
    setEnglishFont jsPDF.normal;;
    restyle (jsPDF.setFontSize 10%float);;
    y ← getY;
    draw (jsPDF.text [noItemsText] margins_left y jsPDF.noOptions);;
    addY 10%float.

End Methods.

End WaslaReportGenerator.

(** ** Reading the findings back from a document *)

(** An area heading is the only text set in 14 point.  The background of an
    item card is the only rounded rectangle filled with slate-50
    [(248, 250, 252)]; what is drawn on it first is the item's title. *)
Inductive Mark :=
| Heading (lines : list string)
| Card (title : list string).

Definition cardFill : jsPDF.Color := (248, 250, 252).

Fixpoint outline (ds : list jsPDF.Drawing) : list Mark :=
  match ds with
  | [] => []
  | jsPDF.Text lines _ _ _ _ _ size _ :: rest =>
      if (size =? 14)%float then Heading lines :: outline rest else outline rest
  | jsPDF.RoundedRect _ _ _ _ _ _ _ fill _ :: rest =>
      if decide (fill = cardFill) then
        match rest with
        | jsPDF.Text title _ _ _ _ _ _ _ :: _ => Card title :: outline rest
        | _ => outline rest
        end
      else outline rest
  | _ :: rest => outline rest
  end.

(** The title of an item as [addInspectionItem] wraps it: in bold 11 point,
    in the Arabic font when the title has Arabic letters, to the width the
    status badge leaves. *)
Definition cardTitle `{!WaslaReportGenerator.Surface} (item : InspectionItem.t)
  : list string :=
  let statusText := toUpperCase (InspectionStatus_text (InspectionItem.status item)) in
  let statusWidth :=
    (WaslaReportGenerator.getTextWidth jsPDF.helvetica jsPDF.bold 8 statusText + 8)%float in
  let titleAvailableWidth :=
    (WaslaReportGenerator.contentWidth - statusWidth - 10)%float in
  let itemTitle := orElse (InspectionItem.point item) "Inspection Point" in
  WaslaReportGenerator.splitTextToSize
    (if arabicRegex_test itemTitle then jsPDF.Amiri else jsPDF.helvetica)
    jsPDF.bold 11 itemTitle titleAvailableWidth.

(** A heading for the area, then a card for each of its items. *)
Definition areaOutline `{!WaslaReportGenerator.Surface} (area : InspectionArea.t)
  : list Mark :=
  Heading [InspectionArea.name area]
  :: map (fun item => Card (cardTitle item)) (InspectionArea.items area).

(** One heading per area, each followed by one card per item, in the
    stored order: the findings as the specification words them. *)
Definition outlineOfAllAreas `{!WaslaReportGenerator.Surface}
  (inspection : InspectionData.t) : list Mark :=
  flat_map areaOutline (InspectionData.areas inspection).

(** The same, for the areas that have an item. *)
Definition outlineOfAreasWithItems `{!WaslaReportGenerator.Surface}
  (inspection : InspectionData.t) : list Mark :=
  flat_map areaOutline
    (filter (fun area => InspectionArea.items area <> [])
            (InspectionData.areas inspection)).

(* ================================================================== *)
(** * A date reader for the examples *)
(* ================================================================== *)

(** The date inputs of the forms and [toISOString().split('T')[0]] produce
    the date-only form [YYYY-MM-DD], which [new Date(text).getTime()] reads
    as midnight UTC of that day, in milliseconds since 1970-01-01.  The
    reader below knows that form only and is what the examples instantiate
    [Date_getTime] with. *)

Definition digitValue (c : ascii) : option Z :=
  let n := Z.of_N (N_of_ascii c) - 48 in
  if bool_decide (0 <= n <= 9) then Some n else None.

Definition isLeapYear (y : Z) : bool :=
  bool_decide (y mod 4 = 0 /\ (y mod 100 <> 0 \/ y mod 400 = 0)).

Definition daysInMonth (y m : Z) : Z :=
  if bool_decide (m = 2) then (if isLeapYear y then 29 else 28)
  else if bool_decide (m = 4 \/ m = 6 \/ m = 9 \/ m = 11) then 30
  else 31.

(** Days from 1970-01-01 to the given day of the proleptic Gregorian
    calendar. *)
Definition daysFromCivil (y m d : Z) : Z :=
  let y' := if bool_decide (m <= 2) then y - 1 else y in
  let era := y' / 400 in
  let yoe := y' - era * 400 in
  let doy := (153 * (if bool_decide (2 < m) then m - 3 else m + 9) + 2) / 5 + d - 1 in
  let doe := yoe * 365 + yoe / 4 - yoe / 100 + doy in
  era * 146097 + doe - 719468.

Definition readDateOnly (text : string) : option Z :=
  match list_ascii_of_string text with
  | [y1; y2; y3; y4; dash1; m1; m2; dash2; d1; d2] =>
      if bool_decide (dash1 = "-"%char /\ dash2 = "-"%char) then
        y1 ← digitValue y1; y2 ← digitValue y2;
        y3 ← digitValue y3; y4 ← digitValue y4;
        m1 ← digitValue m1; m2 ← digitValue m2;
        d1 ← digitValue d1; d2 ← digitValue d2;
        let y := 1000 * y1 + 100 * y2 + 10 * y3 + y4 in
        let m := 10 * m1 + m2 in
        let d := 10 * d1 + d2 in
        if bool_decide (1 <= m <= 12 /\ 1 <= d <= daysInMonth y m)
        then Some (daysFromCivil y m d * 86400000)
        else None
      else None
  | _ => None
  end.
(* ================================================================== *)
(** * Facts about the sort model *)
(* ================================================================== *)

Section ArraySortFacts.
Context {A : Type} (compareFn : A -> A -> option Z).

Lemma sortInsert_Permutation x l : sortInsert compareFn x l ≡ₚ x :: l.
Proof.
  induction l as [|y l IH]; simpl; [done|].
  destruct (comesAfter compareFn y x); [done|].
  rewrite IH. apply Permutation_swap.
Qed.

Lemma fold_sortInsert_Permutation l acc :
  fold_left (fun acc x => sortInsert compareFn x acc) l acc ≡ₚ acc ++ l.
Proof.
  revert acc; induction l as [|x l IH]; intros acc; simpl.
  - by rewrite app_nil_r.
  - rewrite IH, sortInsert_Permutation. simpl. apply Permutation_middle.
Qed.

Lemma Array_sort_Permutation l : Array_sort compareFn l ≡ₚ l.
Proof. unfold Array_sort. by rewrite fold_sortInsert_Permutation. Qed.

(** When the compare function is [key b - key a] on the elements at hand,
    the result is in descending key order, and a list already in that
    order is returned as it is. *)
Variable key : A -> Z.
Variable readable : A -> Prop.
Hypothesis compare_key :
  forall a b, readable a -> readable b -> compareFn a b = Some (key b - key a).

Definition descending (a b : A) : Prop := key b <= key a.

Lemma comesAfter_key y x :
  readable y -> readable x -> comesAfter compareFn y x = bool_decide (key y < key x).
Proof.
  intros Hy Hx. unfold comesAfter. rewrite (compare_key y x Hy Hx).
  apply bool_decide_ext. lia.
Qed.

Lemma sortInsert_sorted x l :
  readable x -> Forall readable l ->
  StronglySorted descending l -> StronglySorted descending (sortInsert compareFn x l).
Proof.
  intros Hx. induction l as [|y l IH]; intros Hl Hs; simpl.
  - repeat constructor.
  - apply Forall_cons in Hl as [Hy Hl].
    apply StronglySorted_inv in Hs as [Hs Hyl].
    rewrite (comesAfter_key y x Hy Hx). case_bool_decide as Hlt.
    + constructor; [by constructor|].
      constructor; [unfold descending; lia|].
      eapply Forall_impl; [exact Hyl|]. unfold descending. intros z Hz. lia.
    + constructor; [by apply IH|].
      rewrite sortInsert_Permutation. constructor; [unfold descending; lia|done].
Qed.

Lemma sortInsert_last x l :
  readable x -> Forall readable l ->
  Forall (fun y => descending y x) l -> sortInsert compareFn x l = l ++ [x].
Proof.
  intros Hx. induction l as [|y l IH]; intros Hl Hd; simpl; [done|].
  apply Forall_cons in Hl as [Hy Hl]. apply Forall_cons in Hd as [Hyx Hd].
  rewrite (comesAfter_key y x Hy Hx). unfold descending in Hyx.
  rewrite bool_decide_eq_false_2 by lia. by rewrite IH.
Qed.

Lemma fold_sortInsert_sorted l acc :
  Forall readable acc -> Forall readable l -> StronglySorted descending acc ->
  StronglySorted descending (fold_left (fun acc x => sortInsert compareFn x acc) l acc).
Proof.
  revert acc; induction l as [|x l IH]; intros acc Hacc Hl Hs; simpl; [done|].
  apply Forall_cons in Hl as [Hx Hl]. apply IH; [|done|by apply sortInsert_sorted].
  rewrite sortInsert_Permutation. by constructor.
Qed.

Lemma Array_sort_sorted l :
  Forall readable l -> StronglySorted descending (Array_sort compareFn l).
Proof. intros Hl. apply fold_sortInsert_sorted; [done|done|constructor]. Qed.

Lemma fold_sortInsert_id l acc :
  Forall readable (acc ++ l) -> StronglySorted descending (acc ++ l) ->
  fold_left (fun acc x => sortInsert compareFn x acc) l acc = acc ++ l.
Proof.
  revert acc; induction l as [|x l IH]; intros acc Hr Hs; simpl.
  - by rewrite app_nil_r.
  - assert (sortInsert compareFn x acc = acc ++ [x]) as ->.
    { apply Forall_app in Hr as [Hacc Hxl]. apply Forall_cons in Hxl as [Hx _].
      apply sortInsert_last; [done|done|].
      apply StronglySorted_app in Hs as (Hcross & _ & _).
      apply Forall_forall. intros y Hy. apply Hcross; [done|left]. }
    rewrite IH; rewrite <- ?app_assoc; done.
Qed.

Lemma Array_sort_id l :
  Forall readable l -> StronglySorted descending l -> Array_sort compareFn l = l.
Proof. intros Hr Hs. unfold Array_sort. by rewrite fold_sortInsert_id. Qed.

End ArraySortFacts.

(* ================================================================== *)
(** * The store *)
(* ================================================================== *)

Section StoreFacts.
Context `{host_dates : !DateReader} `{host_mock : !MockData}.

Local Abbreviation byDate := byDateDescending.

(** ** Dates that can be read make the compare function a key comparison *)

Definition timeOf {A} (date : A -> string) (a : A) : Z :=
  default 0 (Date_getTime (date a)).

Lemma byDate_timeOf {A} (date : A -> string) a b :
  readable date a -> readable date b ->
  byDate date a b = Some (timeOf date b - timeOf date a).
Proof.
  intros [ta Ha] [tb Hb]. unfold byDateDescending, timeOf. by rewrite Ha, Hb.
Qed.

Lemma descending_newestFirst {A} (date : A -> string) l :
  Forall (readable date) l ->
  StronglySorted (descending (timeOf date)) l -> StronglySorted (newestFirst date) l.
Proof.
  induction l as [|a l IH]; intros Hr Hs; [constructor|].
  apply Forall_cons in Hr as [[ta Ha] Hr].
  apply StronglySorted_inv in Hs as [Hs Hal].
  constructor; [by apply IH|].
  apply Forall_forall. intros b Hb.
  rewrite Forall_forall in Hr, Hal.
  destruct (Hr b Hb) as [tb Htb]. specialize (Hal b Hb).
  unfold descending, timeOf in Hal. rewrite Ha, Htb in Hal. simpl in Hal.
  by exists ta, tb.
Qed.

Lemma Forall_filter_keep {A} (Q P : A -> Prop) `{!forall x, Decision (P x)} l :
  Forall Q l -> Forall Q (filter P l).
Proof.
  rewrite !Forall_forall. intros HQ x Hx.
  apply list_elem_of_filter in Hx as [_ Hx]. by apply HQ.
Qed.

Lemma filter_none {A} (P : A -> Prop) `{!forall x, Decision (P x)} l :
  Forall (fun x => ~ P x) l -> filter P l = [].
Proof.
  induction 1 as [|x l Hx _ IH]; [done|]. by rewrite filter_cons_False.
Qed.

Lemma StronglySorted_filter {A} (R : relation A) (P : A -> Prop)
  `{!forall x, Decision (P x)} l :
  StronglySorted R l -> StronglySorted R (filter P l).
Proof.
  induction 1 as [|a l Hs IH Hal]; [constructor|].
  rewrite filter_cons. destruct (decide (P a)); [|done].
  constructor; [done|]. apply Forall_forall. intros b Hb.
  apply list_elem_of_filter in Hb as [_ Hb].
  rewrite Forall_forall in Hal. by apply Hal.
Qed.

Lemma sorted_listing {A} (date : A -> string) l :
  Forall (readable date) (Array_sort (byDate date) l) ->
  StronglySorted (descending (timeOf date)) (Array_sort (byDate date) l).
Proof.
  intros Hr. rewrite Array_sort_Permutation in Hr.
  by apply (Array_sort_sorted _ _ (readable date)); [apply byDate_timeOf|].
Qed.

Lemma sorted_listing_filter {A} (date : A -> string) (P : A -> Prop)
  `{!forall x, Decision (P x)} l :
  Forall (readable date) (Array_sort (byDate date) l) ->
  Array_sort (byDate date) (filter P (Array_sort (byDate date) l))
  = filter P (Array_sort (byDate date) l).
Proof.
  intros Hr.
  apply (Array_sort_id _ (timeOf date) (readable date)).
  - apply byDate_timeOf.
  - by apply Forall_filter_keep.
  - by apply StronglySorted_filter, sorted_listing.
Qed.

(** ** What the listings are *)

Lemma getInspections_Permutation s l :
  parseOrEmpty (localStorage.inspections s) = Some l -> getInspections s ≡ₚ l.
Proof.
  intros H. unfold getInspections. rewrite H.
  apply Array_sort_Permutation.
Qed.

Lemma getInspections_setInspections l s :
  getInspections (localStorage.setInspections (Json l) s)
  = Array_sort (byDate InspectionData.inspectionDate) l.
Proof. done. Qed.

Lemma getInspections_as_sort s :
  exists l, getInspections s = Array_sort (byDate InspectionData.inspectionDate) l.
Proof.
  unfold getInspections.
  destruct (parseOrEmpty (localStorage.inspections s)) as [l|]; [by exists l|].
  by exists [].
Qed.

(** [find] on a list where exactly the records of one place answer to the
    id. *)
Lemma find_unique {A} (P : A -> Prop) `{!forall x, Decision (P x)} l l0 r :
  l ≡ₚ l0 ++ [r] -> Forall (fun x => ~ P x) l0 -> P r ->
  snd <$> list_find P l = Some r.
Proof.
  intros Hp Hl0 Hr.
  assert (r ∈ l) as Hin.
  { rewrite Hp. apply elem_of_app. right. by apply list_elem_of_singleton. }
  destruct (list_find_elem_of P l r Hin Hr) as [[i x] Hfind].
  rewrite Hfind. simpl. f_equal.
  apply list_find_Some in Hfind as (Hix & HPx & _).
  apply list_elem_of_lookup_2 in Hix. rewrite Hp in Hix.
  apply elem_of_app in Hix as [Hix|Hix].
  - rewrite Forall_forall in Hl0. by destruct (Hl0 x Hix).
  - by apply list_elem_of_singleton in Hix.
Qed.

Lemma listing_after_save r s :
  getInspections (saveInspection r s)
  ≡ₚ filter (fun x => InspectionData.id x <> InspectionData.id r) (getInspections s)
     ++ [r].
Proof.
  unfold saveInspection. rewrite getInspections_setInspections.
  apply Array_sort_Permutation.
Qed.

(** How many records of a list carry the id [i]. *)
Definition withId (i : string) (l : list InspectionData.t) : nat :=
  length (filter (fun x => InspectionData.id x = i) l).

Lemma withId_after_save r s i :
  withId i (getInspections (saveInspection r s))
  = if decide (i = InspectionData.id r) then 1%nat else withId i (getInspections s).
Proof.
  unfold withId. rewrite listing_after_save, filter_app, length_app.
  rewrite list_filter_filter.
  destruct (decide (i = InspectionData.id r)) as [->|Hne].
  - rewrite filter_cons_True, filter_nil by done.
    replace (filter _ (getInspections s)) with (@nil InspectionData.t); [done|].
    symmetry. apply filter_none.
    apply Forall_forall. intros x _ [H1 H2]. done.
  - rewrite filter_cons_False, filter_nil by (intros Hr; by apply Hne).
    simpl. rewrite Nat.add_0_r. f_equal.
    apply list_filter_iff. intros x. split; [by intros [? _]|].
    intros Hx. split; [done|]. by rewrite Hx.
Qed.

Lemma saved_record_is_found r s :
  getInspectionById (InspectionData.id r) (saveInspection r s) = Some r.
Proof.
  unfold getInspectionById.
  apply (find_unique _ _ _ _ (listing_after_save r s)); [|done].
  apply Forall_forall. intros x Hx.
  by apply list_elem_of_filter in Hx as [Hx _].
Qed.

(** C2: saving a record and then retrieving it by its id returns that very
    record, whatever the store held before (a missing key, unreadable text
    or any array).  Saving replaces: afterwards exactly one listed record
    carries the id, also after saving the same record twice; the count for
    every other id is what it was, so a listing whose ids are pairwise
    distinct stays so. *)
Theorem saveInspection_then_getInspectionById
  (r : InspectionData.t) (s : localStorage.t) :
  getInspectionById (InspectionData.id r) (saveInspection r s) = Some r
  /\ withId (InspectionData.id r) (getInspections (saveInspection r s)) = 1%nat
  /\ withId (InspectionData.id r)
            (getInspections (saveInspection r (saveInspection r s))) = 1%nat
  /\ (forall i, i <> InspectionData.id r ->
        withId i (getInspections (saveInspection r s)) = withId i (getInspections s))
  /\ (NoDup (InspectionData.id <$> getInspections s) ->
      NoDup (InspectionData.id <$> getInspections (saveInspection r s))).
Proof.
  split; [|split; [|split; [|split]]].
  - apply saved_record_is_found.
  - rewrite withId_after_save. by rewrite decide_True.
  - rewrite withId_after_save. by rewrite decide_True.
  - intros i Hi. rewrite withId_after_save. by rewrite decide_False.
  - intros Hnd. rewrite listing_after_save, fmap_app. simpl.
    apply NoDup_app. split; [|split].
    + eapply sublist_NoDup; [exact Hnd|]. apply fmap_sublist, sublist_filter.
    + intros i Hi Hr. apply list_elem_of_singleton in Hr as ->.
      apply list_elem_of_fmap in Hi as (x & Hx1 & Hx2).
      apply list_elem_of_filter in Hx2 as [Hx2 _]. by apply Hx2.
    + apply NoDup_singleton.
Qed.

(** C3: deleting by id writes back the listing without the records of that
    id, the others as they were and in listing order, and touches no other
    collection; when the dates of the listed inspections can be read, the
    next listing is the old one without those records.  For clients the
    listing after the deletion is the listing before it without the records
    of that id. *)
Theorem delete_removes_only_that_record (id : string) (s : localStorage.t) :
  let others := filter (fun insp => InspectionData.id insp <> id) (getInspections s) in
  localStorage.inspections (deleteInspection id s) = Some (Json others)
  /\ localStorage.clients (deleteInspection id s) = localStorage.clients s
  /\ localStorage.invoices (deleteInspection id s) = localStorage.invoices s
  /\ (Forall (readable InspectionData.inspectionDate) (getInspections s) ->
      getInspections (deleteInspection id s) = others)
  /\ (getClients (deleteClient id s)).1
     = filter (fun c => Client.id c <> id) (getClients s).1.
Proof.
  repeat split; try done.
  - intros Hr. unfold deleteInspection. rewrite getInspections_setInspections.
    destruct (getInspections_as_sort s) as [l Hl]. rewrite Hl in *.
    by apply sorted_listing_filter.
  - unfold deleteClient, getClients.
    by destruct (localStorage.clients s) as [[l| |]|].
Qed.

(** C4, as amended: the inspections and the invoices are listed newest
    first whenever the dates of the listed records can be read; the clients,
    which have no date, are listed in the order in which they are stored. *)
Theorem listings_order (s : localStorage.t) :
  (Forall (readable InspectionData.inspectionDate) (getInspections s) ->
   StronglySorted (newestFirst InspectionData.inspectionDate) (getInspections s))
  /\ (Forall (readable Invoice.invoiceDate) (getInvoices s) ->
      StronglySorted (newestFirst Invoice.invoiceDate) (getInvoices s))
  /\ (forall stored, localStorage.clients s = Some (Json stored) ->
      (getClients s).1 = stored).
Proof.
  split; [|split].
  - intros Hr. apply descending_newestFirst; [done|].
    destruct (getInspections_as_sort s) as [l Hl]. rewrite Hl in *.
    by apply sorted_listing.
  - intros Hr. apply descending_newestFirst; [done|].
    revert Hr. unfold getInvoices.
    destruct (parseOrEmpty (localStorage.invoices s)) as [l|]; [|constructor].
    apply sorted_listing.
  - intros stored Hs. unfold getClients. by rewrite Hs.
Qed.

(** C10, as amended: with no [clients] key in storage the mock list is
    returned and written to storage; text that does not parse gives the
    empty list and leaves storage alone; and, the mock list not being
    empty, the empty list is returned only for text that does not parse or
    for a stored empty array. *)
Theorem getClients_absent_malformed_empty (s : localStorage.t) :
  (localStorage.clients s = None ->
   getClients s = (MOCK_CLIENTS, localStorage.setClients (Json MOCK_CLIENTS) s))
  /\ (localStorage.clients s = Some Malformed -> getClients s = ([], s))
  /\ (MOCK_CLIENTS <> [] -> (getClients s).1 = [] ->
      localStorage.clients s = Some Malformed
      \/ localStorage.clients s = Some (Json [])).
Proof.
  unfold getClients.
  destruct (localStorage.clients s) as [[l| |]|]; simpl; repeat split; try done.
  - intros _ ->. by right.
  - intros _ _. by left.
Qed.

End StoreFacts.

(** ** The dashboard's filter *)

Lemma sublist_filter_greatest {A} (P : A -> Prop) `{!forall x, Decision (P x)}
  (l' l : list A) :
  l' `sublist_of` l -> Forall P l' -> l' `sublist_of` filter P l.
Proof.
  induction 1 as [|x l1 l2 Hsub IH|x l1 l2 Hsub IH]; intros HP.
  - done.
  - apply Forall_cons in HP as [Hx HP].
    rewrite filter_cons_True by done. by apply sublist_skip, IH.
  - rewrite filter_cons. destruct (decide (P x)); [apply sublist_cons|]; by apply IH.
Qed.

Lemma PropertyType_text_inj t1 t2 :
  PropertyType_text t1 = PropertyType_text t2 -> t1 = t2.
Proof. by destruct t1, t2. Qed.

Lemma filteredInspections_by_type (t : PropertyType) inspections :
  filteredInspections (PropertyType_text t) inspections
  = filter (fun insp => InspectionData.propertyType insp = t) inspections.
Proof.
  unfold filteredInspections. apply list_filter_iff. intros insp. split.
  - intros [Hall|Ht]; [by destruct t|by apply PropertyType_text_inj].
  - intros ->. by right.
Qed.

(** C8: filtering the list of inspections by a property type keeps exactly
    the inspections of that type, in the order they have in the list: the
    result is a subsequence of the list, all of it is of that type, every
    subsequence of the list that is all of that type is a subsequence of
    the result, and any order the list is in (newest first, as listed by the
    store) the result is in too. *)
Theorem filteredInspections_exact
  (t : PropertyType) (inspections : list InspectionData.t) :
  let shown := filteredInspections (PropertyType_text t) inspections in
  shown `sublist_of` inspections
  /\ (forall insp, insp ∈ shown <->
                   insp ∈ inspections /\ InspectionData.propertyType insp = t)
  /\ (forall l, l `sublist_of` inspections ->
                Forall (fun insp => InspectionData.propertyType insp = t) l ->
                l `sublist_of` shown)
  /\ (forall R : relation InspectionData.t,
        StronglySorted R inspections -> StronglySorted R shown).
Proof.
  simpl. rewrite filteredInspections_by_type. split; [|split; [|split]].
  - apply sublist_filter.
  - intros insp. rewrite list_elem_of_filter. tauto.
  - intros l. apply sublist_filter_greatest.
  - intros R. apply StronglySorted_filter.
Qed.

(* ================================================================== *)
(** * The invoice form *)
(* ================================================================== *)

Module InvoiceFormFacts.
Import InvoiceForm.

(** A line whose total is its quantity times its unit price. *)
Definition lineTotalOk (line : InvoiceServiceItem.t) : Prop :=
  InvoiceServiceItem.total line
  = (InvoiceServiceItem.quantity line * InvoiceServiceItem.unitPrice line)%float.

(** The line totals added up from zero, first line first. *)
Fixpoint addTotals (acc : float) (lines : list InvoiceServiceItem.t) : float :=
  match lines with
  | [] => acc
  | line :: rest => addTotals (acc + InvoiceServiceItem.total line)%float rest
  end.

Definition sumOfTotals (lines : list InvoiceServiceItem.t) : float :=
  addTotals 0%float lines.

Lemma fold_left_addTotals lines acc :
  fold_left (fun acc item => (acc + InvoiceServiceItem.total item)%float) lines acc
  = addTotals acc lines.
Proof. revert acc. induction lines as [|l lines IH]; intros acc; simpl; auto. Qed.

Lemma recomputeTotals_services invoice :
  Invoice.services (recomputeTotals invoice) = Invoice.services invoice.
Proof. done. Qed.

Lemma recomputeTotals_amountPaid invoice :
  Invoice.amountPaid (recomputeTotals invoice) = Invoice.amountPaid invoice.
Proof. done. Qed.

Lemma recomputeTotals_totals invoice :
  let invoice' := recomputeTotals invoice in
  Invoice.subtotal invoice' = sumOfTotals (Invoice.services invoice')
  /\ Invoice.tax invoice' = (Invoice.subtotal invoice' * 0.05)%float
  /\ Invoice.totalAmount invoice'
     = (Invoice.subtotal invoice' + Invoice.tax invoice')%float.
Proof.
  simpl. unfold recomputeTotals. simpl. by rewrite fold_left_addTotals.
Qed.

Lemma setServiceField_keeps_ok fv line :
  isQuantityOrUnitPrice fv = false ->
  (forall v, fv <> service_total v) ->
  lineTotalOk line -> lineTotalOk (setServiceField fv line).
Proof.
  intros Hq Ht Hok. destruct fv; try done. by destruct (Ht v).
Qed.

Lemma handleServiceChange_lines index fv invoice :
  (forall v, fv <> service_total v) ->
  (index < length (Invoice.services invoice))%nat ->
  Forall lineTotalOk (Invoice.services invoice) ->
  exists invoice',
    handleServiceChange index fv invoice = Some invoice'
    /\ Forall lineTotalOk (Invoice.services invoice').
Proof.
  intros Ht Hlt Hok. unfold handleServiceChange.
  destruct (lookup_lt_is_Some_2 _ _ Hlt) as [old Hold]. rewrite Hold.
  eexists. split; [done|]. simpl.
  apply Forall_insert; [done|].
  destruct (isQuantityOrUnitPrice fv) eqn:Hq; [done|].
  apply setServiceField_keeps_ok; [done|done|].
  rewrite Forall_forall in Hok. eapply Hok, list_elem_of_lookup_2, Hold.
Qed.

Lemma removeService_lines index invoice :
  Forall lineTotalOk (Invoice.services invoice) ->
  Forall lineTotalOk (Invoice.services (removeService index invoice)).
Proof.
  intros Hok. simpl. rewrite Forall_forall in *. intros line Hin.
  apply list_elem_of_fmap in Hin as ([i x] & -> & Hin).
  apply list_elem_of_filter in Hin as [_ Hin].
  apply list_elem_of_lookup in Hin as [j Hj].
  rewrite list_lookup_imap in Hj.
  destruct (Invoice.services invoice !! j) as [y|] eqn:Hy; [|done].
  simpl in Hj. injection Hj as _ ->. eapply Hok, list_elem_of_lookup_2, Hy.
Qed.

Lemma addService_lines now invoice :
  Forall lineTotalOk (Invoice.services invoice) ->
  Forall lineTotalOk (Invoice.services (addService now invoice)).
Proof.
  intros Hok. simpl. apply Forall_app. split; [done|].
  constructor; [|done]. reflexivity.
Qed.

(** C1: in a form whose lines have their totals right, every action on a
    line that is on screen (typing a description, a quantity or a unit
    price, removing the line, adding a line) goes through and leaves a draft
    in which every line's total is its quantity times its unit price, the
    subtotal is the sum of the line totals, the tax is the subtotal times
    0.05, the total amount is subtotal plus tax, and the balance due shown
    is the total amount minus the amount paid. *)
Theorem invoice_totals_after_service_event
  (invoice : Invoice.t) (e : ServiceEvent) :
  Forall lineTotalOk (Invoice.services invoice) ->
  onScreen e invoice ->
  exists invoice',
    step e invoice = Some invoice'
    /\ Forall lineTotalOk (Invoice.services invoice')
    /\ Invoice.subtotal invoice' = sumOfTotals (Invoice.services invoice')
    /\ Invoice.tax invoice' = (Invoice.subtotal invoice' * 0.05)%float
    /\ Invoice.totalAmount invoice'
       = (Invoice.subtotal invoice' + Invoice.tax invoice')%float
    /\ balanceDue invoice'
       = (Invoice.totalAmount invoice' - Invoice.amountPaid invoice')%float.
Proof.
  intros Hok Hscreen.
  assert (exists handled, handle e invoice = Some handled
                          /\ Forall lineTotalOk (Invoice.services handled))
    as (handled & Hhandled & Hlines).
  { destruct e as [index value|index value|index value|index|now]; simpl in *.
    - by apply handleServiceChange_lines.
    - by apply handleServiceChange_lines.
    - by apply handleServiceChange_lines.
    - eexists. split; [done|]. by apply removeService_lines.
    - eexists. split; [done|]. by apply addService_lines. }
  exists (recomputeTotals handled).
  split; [unfold step; by rewrite Hhandled|].
  split; [by rewrite recomputeTotals_services|].
  destruct (recomputeTotals_totals handled) as (Hsub & Htax & Htotal).
  done.
Qed.

(** The draft of a new invoice has no line, and its totals are zero. *)
Lemma newInvoice_ok now today due :
  let invoice := newInvoice now today due in
  Invoice.services invoice = []
  /\ Invoice.subtotal invoice = sumOfTotals (Invoice.services invoice)
  /\ Invoice.tax invoice = (Invoice.subtotal invoice * 0.05)%float
  /\ Invoice.totalAmount invoice
     = (Invoice.subtotal invoice + Invoice.tax invoice)%float.
Proof. repeat split; reflexivity. Qed.

(** C7: selecting a property replaces the service lines by one line whose
    quantity is the size of the property, whose unit price is 1 for a
    residential and 2 for a commercial property, and whose total is the
    size times that rate. *)
Theorem handlePropertySelect_one_line
  (now : Z) (property : Property.t) (invoice : Invoice.t) :
  let rate := match Property.type property with
              | Residential => 1%float
              | Commercial => 2%float
              end in
  exists line,
    Invoice.services (handlePropertySelect now property invoice) = [line]
    /\ InvoiceServiceItem.quantity line = Property.size property
    /\ InvoiceServiceItem.unitPrice line = rate
    /\ InvoiceServiceItem.total line = (Property.size property * rate)%float
    /\ Invoice.propertyLocation (handlePropertySelect now property invoice)
       = Property.location property.
Proof.
  simpl. eexists. split; [reflexivity|]. simpl.
  by destruct (Property.type property).
Qed.

End InvoiceFormFacts.

(* ================================================================== *)
(** * The AI summary *)
(* ================================================================== *)

Section SummaryFacts.
Context `{host_ai : !TextService} `{host_dates : !DateReader}.

Lemma summaryErrorText_not_empty : summaryErrorText <> "".
Proof. done. Qed.

(** C9: when the call to the text service fails, the fixed error text is
    what [handleGenerateSummary] puts into [aiSummary], in the component
    and in the store; it is not empty, so the report page shows it as the
    stored summary and no longer renders the generate button. *)
Theorem failed_summary_is_stored
  (inspection : InspectionData.t) (s : localStorage.t) :
  generateContent (summaryPrompt (failedItemsOf inspection)) = None ->
  let updated := InspectionData.set_aiSummary (Some summaryErrorText) inspection in
  handleGenerateSummary (Some inspection) s = (Some updated, saveInspection updated s)
  /\ InspectionData.aiSummary updated = Some summaryErrorText
  /\ summaryErrorText <> ""
  /\ getInspectionById (InspectionData.id inspection) (saveInspection updated s)
     = Some updated
  /\ hasSummary updated = true
  /\ executiveSummary updated = (false, StoredSummary summaryErrorText).
Proof.
  intros Hfail updated.
  split; [|split; [done|split; [done|split; [|done]]]].
  - unfold handleGenerateSummary, generateReportSummary. by rewrite Hfail.
  - apply (saved_record_is_found updated s).
Qed.

End SummaryFacts.

(* ================================================================== *)
(** * The findings section of the report *)
(* ================================================================== *)

Module ReportFacts.
Import WaslaReportGenerator.

Section Findings.
Context `{surface : !Surface}.

(** What a document holds, and the graphics state of a generator. *)
Definition drawn (g : t) : list jsPDF.Drawing := jsPDF.drawings (pdf g).

Definition styleOf (g : t) : jsPDF.GraphicsState := jsPDF.state (pdf g).

(** ** Drawings that are neither a heading nor a card background *)

Definition quiet (d : jsPDF.Drawing) : Prop :=
  match d with
  | jsPDF.Text _ _ _ _ _ _ size _ => (size =? 14)%float = false
  | jsPDF.RoundedRect _ _ _ _ _ _ _ fill _ => fill <> cardFill
  | _ => True
  end.

Lemma outline_quiet_cons d r : quiet d -> outline (d :: r) = outline r.
Proof.
  destruct d; simpl; try done.
  - by intros ->.
  - intros Hfill. by rewrite decide_False.
Qed.

Lemma outline_quiet_app l r : Forall quiet l -> outline (l ++ r) = outline r.
Proof.
  induction 1 as [|d l Hd _ IH]; [done|].
  change ((d :: l) ++ r) with (d :: (l ++ r)). by rewrite outline_quiet_cons.
Qed.

(** [new] adds the marks [marks] in front of whatever follows it. *)
Definition Contributes (marks : list Mark) (new : list jsPDF.Drawing) : Prop :=
  forall r, outline (new ++ r) = marks ++ outline r.

Lemma Contributes_nil : Contributes [] [].
Proof. by intros r. Qed.

Lemma Contributes_quiet_app marks l new :
  Forall quiet l -> Contributes marks new -> Contributes marks (l ++ new).
Proof. intros Hl Hnew r. by rewrite <- app_assoc, outline_quiet_app. Qed.

Lemma Contributes_quiet_cons marks d new :
  quiet d -> Contributes marks new -> Contributes marks (d :: new).
Proof.
  intros Hd Hnew.
  apply (Contributes_quiet_app marks [d]); [by repeat constructor|done].
Qed.

Lemma Contributes_app marks1 marks2 new1 new2 :
  Contributes marks1 new1 -> Contributes marks2 new2 ->
  Contributes (marks1 ++ marks2) (new1 ++ new2).
Proof. intros H1 H2 r. by rewrite <- !app_assoc, H1, H2. Qed.

Lemma Contributes_heading marks lines x y opts font style color new :
  Contributes marks new ->
  Contributes (Heading lines :: marks)
              (jsPDF.Text lines x y opts font style 14 color :: new).
Proof. intros Hnew r. simpl. by rewrite Hnew. Qed.

Lemma Contributes_card marks x y w h rx ry style draw_
  lines tx ty opts font fstyle size color new :
  (size =? 14)%float = false ->
  Contributes marks new ->
  Contributes (Card lines :: marks)
    (jsPDF.RoundedRect x y w h rx ry style cardFill draw_
     :: jsPDF.Text lines tx ty opts font fstyle size color :: new).
Proof. intros Hsize Hnew r. simpl. by rewrite Hsize, Hnew. Qed.

(** ** What holds of a generator between drawings *)

(** A watermark that was fetched is an image jsPDF can decode. *)
Definition watermarkOk (g : t) : Prop :=
  match watermarkBase64 g with
  | Some data => decodes data = true
  | None => True
  end.

(** [fill]: the fill colour is not the card background's; [size]: the font
    size is not the headings'. *)
Definition styleOk (fill size : bool) (s : jsPDF.GraphicsState) : Prop :=
  (fill = true -> jsPDF.fillColor s <> cardFill)
  /\ (size = true -> (jsPDF.fontSize s =? 14)%float = false).

Definition inv (fill size : bool) (g : t) : Prop :=
  watermarkOk g /\ styleOk fill size (styleOf g).

(** [m] returns, draws quiet drawings only, and takes a generator of [I]
    to one of [J]. *)
Definition Quiet {A} (I J : t -> Prop) (m : M A) : Prop :=
  forall g, I g ->
    exists a g' new,
      m g = Some (a, g') /\ J g' /\ drawn g' = drawn g ++ new /\ Forall quiet new.

Lemma Quiet_weaken {A} (I J J' : t -> Prop) (m : M A) :
  Quiet I J m -> (forall g, J g -> J' g) -> Quiet I J' m.
Proof.
  intros Hm HJ g Hg. destruct (Hm g Hg) as (a & g' & new & ? & ? & ? & ?).
  exists a, g', new. auto.
Qed.

Lemma Quiet_ret {A} (I : t -> Prop) (a : A) : Quiet I I (mret a).
Proof.
  intros g Hg. exists a, g, []. rewrite app_nil_r. by repeat split.
Qed.

Lemma Quiet_bind {A B} (I K J : t -> Prop) (m : M A) (f : A -> M B) :
  Quiet I K m -> (forall a, Quiet K J (f a)) -> Quiet I J (m ≫= f).
Proof.
  intros Hm Hf g Hg.
  destruct (Hm g Hg) as (a & g1 & new1 & Hrun1 & Hg1 & Hd1 & Hq1).
  destruct (Hf a g1 Hg1) as (b & g2 & new2 & Hrun2 & Hg2 & Hd2 & Hq2).
  exists b, g2, (new1 ++ new2).
  split; [|split; [done|split]].
  - unfold mbind, M_bind. by rewrite Hrun1.
  - by rewrite Hd2, Hd1, app_assoc.
  - by apply Forall_app.
Qed.

Lemma Quiet_if {A} (I J : t -> Prop) (b : bool) (m1 m2 : M A) :
  Quiet I J m1 -> Quiet I J m2 -> Quiet I J (if b then m1 else m2).
Proof. by destruct b. Qed.

Lemma Quiet_when (I : t -> Prop) (b : bool) (m : M unit) :
  Quiet I I m -> Quiet I I (when b m).
Proof. intros Hm. destruct b; [done|apply Quiet_ret]. Qed.

Lemma Quiet_forOf {A} (I : t -> Prop) (l : list A) (body : A -> M unit) :
  (forall x, Quiet I I (body x)) -> Quiet I I (forOf l body).
Proof.
  intros Hbody. induction l as [|x l IH]; simpl; [apply Quiet_ret|].
  eapply Quiet_bind; [apply Hbody|]. by intros _.
Qed.

Lemma Quiet_reads {A} (I : t -> Prop) (h : t -> A) : Quiet I I (reads h).
Proof.
  intros g Hg. exists (h g), g, []. rewrite app_nil_r. by repeat split.
Qed.

Lemma Quiet_setY (fill size : bool) y : Quiet (inv fill size) (inv fill size) (setY y).
Proof.
  intros g Hg. eexists tt, _, []. split; [reflexivity|].
  split; [exact Hg|]. split; [|constructor].
  unfold drawn. simpl. by rewrite app_nil_r.
Qed.

Lemma Quiet_addY (fill size : bool) dy :
  Quiet (inv fill size) (inv fill size) (addY dy).
Proof.
  intros g Hg. eexists tt, _, []. split; [reflexivity|].
  split; [exact Hg|]. split; [|constructor].
  unfold drawn. simpl. by rewrite app_nil_r.
Qed.

Lemma Quiet_restyle (fill size fill' size' : bool) f :
  (forall s, styleOk fill size s -> styleOk fill' size' (f s)) ->
  Quiet (inv fill size) (inv fill' size') (restyle f).
Proof.
  intros Hf g [Hw Hs]. eexists tt, _, []. split; [reflexivity|].
  split; [split; [exact Hw|by apply Hf]|]. split; [|constructor].
  unfold drawn. simpl. by rewrite app_nil_r.
Qed.

Lemma Quiet_draw (fill size : bool) d :
  (forall s, styleOk fill size s -> quiet (d s)) ->
  Quiet (inv fill size) (inv fill size) (draw d).
Proof.
  intros Hd g [Hw Hs]. eexists tt, _, [_]. split; [reflexivity|].
  split; [split; [exact Hw|exact Hs]|]. split; [reflexivity|].
  repeat constructor. by apply Hd.
Qed.


(** ** The graphics state under the setters *)

Lemma styleOk_setFont fill size name style s :
  styleOk fill size s -> styleOk fill size (jsPDF.setFont name style s).
Proof. done. Qed.

Lemma styleOk_setTextColor fill size c s :
  styleOk fill size s -> styleOk fill size (jsPDF.setTextColor c s).
Proof. done. Qed.

Lemma styleOk_setDrawColor fill size c s :
  styleOk fill size s -> styleOk fill size (jsPDF.setDrawColor c s).
Proof. done. Qed.

Lemma styleOk_setFontSize fill size n s :
  (n =? 14)%float = false ->
  styleOk fill size s -> styleOk fill true (jsPDF.setFontSize n s).
Proof. intros Hn [Hf _]. by split. Qed.

Lemma styleOk_setFillColor fill size c s :
  c <> cardFill ->
  styleOk fill size s -> styleOk true size (jsPDF.setFillColor c s).
Proof. intros Hc [_ Hs]. by split. Qed.

Lemma statusBgColors_not_cardFill status : statusBgColors status <> cardFill.
Proof. by destruct status. Qed.

Lemma inv_weaken fill size fill' size' g :
  implb fill fill' = true -> implb size size' = true ->
  inv fill' size' g -> inv fill size g.
Proof.
  intros Hf Hs [Hw [Hfill Hsize]]. split; [done|]. split.
  - intros ->. by apply Hfill.
  - intros ->. by apply Hsize.
Qed.

(** ** Images *)

Lemma Quiet_addWatermark fill size : Quiet (inv fill size) (inv fill size) addWatermark.
Proof.
  intros g [Hw Hs]. unfold addWatermark, mbind, M_bind, reads.
  unfold watermarkOk in Hw.
  destruct (watermarkBase64 g) as [data|] eqn:Hdata.
  - unfold pdf_addImage. rewrite Hw. simpl.
    eexists tt, _, [_]. split; [reflexivity|].
    split; [split; [unfold watermarkOk; simpl; by rewrite Hdata|exact Hs]|].
    split; [reflexivity|]. by repeat constructor.
  - exists tt, g, []. rewrite app_nil_r.
    split; [done|]. split; [|done]. split; [|done].
    unfold watermarkOk. by rewrite Hdata.
Qed.

Lemma Quiet_tryOrWarn_addImage fill size data format x w h :
  Quiet (inv fill size) (inv fill size)
        (tryOrWarn (y ← getY; pdf_addImage data format x y w h)).
Proof.
  intros g Hg. unfold tryOrWarn, mbind, M_bind, getY, reads, pdf_addImage.
  destruct (decodes data).
  - eexists tt, _, [_]. split; [reflexivity|].
    split; [exact Hg|]. split; [reflexivity|]. by repeat constructor.
  - exists tt, g, []. rewrite app_nil_r.
    split; [reflexivity|]. split; [exact Hg|]. split; [reflexivity|constructor].
Qed.

End Findings.

(** ** Proving that a block is quiet *)

Ltac quiet_side :=
  first
    [ reflexivity
    | apply statusBgColors_not_cardFill
    | discriminate
    | done ].

Ltac quiet_one :=
  lazymatch goal with
  | |- Quiet _ _ (mret _) => apply Quiet_ret
  | |- Quiet _ _ (reads _) => apply Quiet_reads
  | |- Quiet _ _ getY => apply Quiet_reads
  | |- Quiet _ _ (pdf_getTextWidth _) => apply Quiet_reads
  | |- Quiet _ _ (pdf_splitTextToSize _ _) => apply Quiet_reads
  | |- Quiet _ _ (setY _) => apply Quiet_setY
  | |- Quiet _ _ (addY _) => apply Quiet_addY
  | |- Quiet _ _ (restyle (jsPDF.setFontSize _)) =>
      eapply Quiet_restyle; intros ? ?; eapply styleOk_setFontSize;
      [reflexivity|eassumption]
  | |- Quiet _ _ (restyle (jsPDF.setFillColor _)) =>
      eapply Quiet_restyle; intros ? ?; eapply styleOk_setFillColor;
      [quiet_side|eassumption]
  | |- Quiet _ _ (restyle _) => eapply Quiet_restyle; intros ? ?; eassumption
  | |- Quiet _ _ (setEnglishFont _) => eapply Quiet_restyle; intros ? ?; eassumption
  | |- Quiet _ _ (setArabicFont _) => eapply Quiet_restyle; intros ? ?; eassumption
  | |- Quiet _ _ (draw (jsPDF.text _ _ _ _)) =>
      let Hok := fresh "Hok" in
      apply Quiet_draw; intros ? [_ Hok]; by apply Hok
  | |- Quiet _ _ (draw (jsPDF.roundedRect _ _ _ _ _ _ _)) =>
      let Hok := fresh "Hok" in
      apply Quiet_draw; intros ? [Hok _]; by apply Hok
  | |- Quiet _ _ (draw _) => apply Quiet_draw; intros ? _; exact I
  | |- Quiet _ _ addWatermark => apply Quiet_addWatermark
  | |- Quiet _ _ (tryOrWarn _) => apply Quiet_tryOrWarn_addImage
  end.

Create HintDb quiet discriminated.

Ltac quiet_back :=
  let g := fresh "g" in
  let Hw := fresh "Hw" in
  let Hf := fresh "Hf" in
  let Hs := fresh "Hs" in
  let E := fresh "E" in
  intros g [Hw [Hf Hs]]; split;
  [ exact Hw
  | split; intros E;
    first [ exact (Hf E) | exact (Hf eq_refl) | exact (Hs E) | exact (Hs eq_refl) ] ].

Ltac quiet_block :=
  cbv zeta;
  lazymatch goal with
  | |- Quiet _ _ (mbind _ _) =>
      eapply Quiet_bind; [quiet_stmt | intros ?; quiet_block]
  | |- _ => quiet_stmt
  end
with quiet_stmt :=
  lazymatch goal with
  | |- Quiet _ _ (if _ then _ else _) => apply Quiet_if; quiet_block
  | |- Quiet _ _ (when _ _) => eapply Quiet_when; quiet_same
  | |- Quiet _ _ (forOf _ _) => eapply Quiet_forOf; intros ?; quiet_same
  | |- Quiet _ _ (forEach _ _) =>
      unfold forEach; eapply Quiet_forOf; intros ?; quiet_same
  | |- _ => first [ quiet_one | solve [eauto with quiet nocore] ]
  end
with quiet_same :=
  eapply Quiet_weaken; [quiet_block | quiet_back].

Section Blocks.
Context `{surface : !Surface}.

Lemma Quiet_addPage fill size : Quiet (inv fill size) (inv fill size) addPage.
Proof. unfold addPage. quiet_block. Qed.

Hint Resolve Quiet_addPage : quiet.

Lemma Quiet_checkPageBreak fill size requiredSpace :
  Quiet (inv fill size) (inv fill size) (checkPageBreak requiredSpace).
Proof. unfold checkPageBreak. quiet_block. Qed.

Hint Resolve Quiet_checkPageBreak : quiet.

Lemma Quiet_addPhotos fill size photos :
  Quiet (inv fill size) (inv fill size) (addPhotos photos).
Proof. unfold addPhotos. quiet_block. Qed.

End Blocks.

Global Hint Resolve Quiet_addPage Quiet_checkPageBreak Quiet_addPhotos : quiet.

(** ** Following a method statement by statement *)

Section Running.
Context `{surface : !Surface}.

(** [m] returns from [g], and [post] holds of its value, the generator it
    leaves and what it drew. *)
Definition Run {A} (m : M A) (g : t)
  (post : A -> t -> list jsPDF.Drawing -> Prop) : Prop :=
  exists a g' new, m g = Some (a, g') /\ drawn g' = drawn g ++ new /\ post a g' new.

Lemma Run_bind {A B} (m : M A) (f : A -> M B) g post :
  Run m g (fun a g1 new1 => Run (f a) g1 (fun b g2 new2 => post b g2 (new1 ++ new2))) ->
  Run (m ≫= f) g post.
Proof.
  intros (a & g1 & new1 & Hrun1 & Hd1 & b & g2 & new2 & Hrun2 & Hd2 & Hpost).
  exists b, g2, (new1 ++ new2). split; [|split; [|done]].
  - unfold mbind, M_bind. by rewrite Hrun1.
  - by rewrite Hd2, Hd1, app_assoc.
Qed.

Lemma Run_quiet {A} (I J : t -> Prop) (m : M A) g post :
  Quiet I J m -> I g ->
  (forall a g' new, J g' -> Forall quiet new -> post a g' new) ->
  Run m g post.
Proof.
  intros Hm Hg Hpost. destruct (Hm g Hg) as (a & g' & new & ? & ? & ? & ?).
  exists a, g', new. auto.
Qed.

Lemma Run_reads {A} (h : t -> A) g post : post (h g) g [] -> Run (reads h) g post.
Proof. intros Hpost. exists (h g), g, []. by rewrite app_nil_r. Qed.

Lemma Run_restyle f g post :
  post tt (mk (jsPDF.mk (f (styleOf g)) (drawn g))
              (currentY g) (logoBase64 g) (watermarkBase64 g)) [] ->
  Run (restyle f) g post.
Proof.
  intros Hpost. eexists tt, _, []. split; [reflexivity|]. split; [|exact Hpost].
  unfold drawn. simpl. by rewrite app_nil_r.
Qed.

Lemma Run_draw d g post :
  post tt (mk (jsPDF.mk (styleOf g) (drawn g ++ [d (styleOf g)]))
              (currentY g) (logoBase64 g) (watermarkBase64 g)) [d (styleOf g)] ->
  Run (draw d) g post.
Proof.
  intros Hpost. eexists tt, _, [_]. split; [reflexivity|]. split; [|exact Hpost].
  reflexivity.
Qed.

Lemma Run_setY y g post :
  post tt (mk (pdf g) y (logoBase64 g) (watermarkBase64 g)) [] ->
  Run (setY y) g post.
Proof.
  intros Hpost. eexists tt, _, []. split; [reflexivity|]. split; [|exact Hpost].
  unfold drawn. simpl. by rewrite app_nil_r.
Qed.

Lemma Run_addY dy g post :
  post tt (mk (pdf g) (currentY g + dy)%float (logoBase64 g) (watermarkBase64 g)) [] ->
  Run (addY dy) g post.
Proof.
  intros Hpost. eexists tt, _, []. split; [reflexivity|]. split; [|exact Hpost].
  unfold drawn. simpl. by rewrite app_nil_r.
Qed.

Lemma font_choice (arabic : bool) style :
  (if arabic then setArabicFont style else setEnglishFont style)
  = restyle (jsPDF.setFont (if arabic then jsPDF.Amiri else jsPDF.helvetica) style).
Proof. by destruct arabic. Qed.

Lemma Contributes_skip marks new : Contributes marks new -> Contributes marks ([] ++ new).
Proof. done. Qed.

Lemma Contributes_one marks d new :
  Contributes marks (d :: new) -> Contributes marks ([d] ++ new).
Proof. done. Qed.

End Running.

(** One statement, exactly. *)
Ltac run_exact :=
  lazymatch goal with
  | |- Run (mbind _ _) _ _ => eapply Run_bind
  | |- _ => idtac
  end;
  first [ apply Run_reads | apply Run_restyle | apply Run_draw
        | apply Run_setY | apply Run_addY ];
  cbv beta.

(** One statement, as a quiet block. *)
Ltac run_quietly :=
  lazymatch goal with
  | H : inv ?f ?s ?g |- Run (mbind _ _) ?g _ =>
      eapply Run_bind; eapply (Run_quiet (inv f s));
      [ quiet_stmt | exact H | clear H; intros ? ? ? ? ?; cbv beta ]
  end.

(** [inv] of a generator restyled by hand, from [inv] of where it came
    from. *)
Ltac inv_now :=
  lazymatch goal with
  | H : inv _ _ _ |- inv _ _ _ =>
      let Hw := fresh "Hw" in
      let Hf := fresh "Hf" in
      let Hs := fresh "Hs" in
      let E := fresh "E" in
      destruct H as [Hw [Hf Hs]]; split;
      [ exact Hw
      | split; intros E; cbn;
        first [ discriminate E
              | reflexivity
              | apply statusBgColors_not_cardFill
              | exact (Hf eq_refl)
              | exact (Hs eq_refl) ] ]
  end.

(** Forget how the generator at hand came about, keeping [inv fill size]. *)
Ltac settle fill size :=
  lazymatch goal with
  | |- Run _ ?g _ =>
      let H := fresh "Hinv" in
      assert (H : inv fill size g) by inv_now;
      lazymatch goal with
      | H0 : inv _ _ _, H1 : inv _ _ g |- _ => clear H0
      end;
      let g' := fresh "g" in
      let E := fresh "E" in
      remember g as g' eqn:E; clear E
  end.

(** ** Items, areas and the whole section *)

Section Outline.
Context `{surface : !Surface}.

Lemma Run_ret {A} (a : A) g post : post a g [] -> Run (mret a) g post.
Proof. intros Hpost. exists a, g, []. by rewrite app_nil_r. Qed.

Lemma Run_mono {A} (m : M A) g (post post' : A -> t -> list jsPDF.Drawing -> Prop) :
  Run m g post -> (forall a g' new, post a g' new -> post' a g' new) -> Run m g post'.
Proof.
  intros (a & g' & new & ? & ? & ?) Himp. exists a, g', new. auto.
Qed.

Lemma Contributes_outline marks new : Contributes marks new -> outline new = marks.
Proof. intros H. specialize (H []). by rewrite !app_nil_r in H. Qed.

(** An item: quiet drawings, then the card background with the title on
    it, then quiet drawings. *)
Lemma Run_addInspectionItem item g :
  inv false false g ->
  Run (addInspectionItem item) g
      (fun _ g' new => inv false false g' /\ Contributes [Card (cardTitle item)] new).
Proof.
  intros Hinv. unfold addInspectionItem. cbv zeta.
  rewrite !font_choice.
  unfold setEnglishFont, setArabicFont, getY, pdf_getTextWidth, pdf_splitTextToSize.
  (* up to the page break *)
  do 2 run_quietly.
  (* the badge is measured and the title wrapped in fonts set just before *)
  do 6 run_exact.
  cbn [styleOf pdf jsPDF.state jsPDF.font jsPDF.fontStyle jsPDF.fontSize
       jsPDF.setFont jsPDF.setFontSize].
  settle false true.
  (* first pass *)
  do 15 run_quietly.
  lazymatch goal with
  | H : inv _ true _ |- _ => pose proof (proj2 (proj2 H) eq_refl) as Hsize
  end.
  (* the background, and the title on top of it *)
  do 6 run_exact.
  settle true true.
  (* second pass *)
  do 9 run_quietly.
  run_exact.
  split.
  - lazymatch goal with
    | H : inv true true ?g0 |- _ =>
        exact (inv_weaken false false true true g0 eq_refl eq_refl H)
    end.
  - cbn [app jsPDF.roundedRect jsPDF.text styleOf pdf jsPDF.state jsPDF.fillColor
         jsPDF.drawColor jsPDF.setFillColor jsPDF.fontSize jsPDF.font
         jsPDF.fontStyle jsPDF.textColor].
    repeat (apply Contributes_quiet_app; [assumption|]).
    apply Contributes_card; [exact Hsize|].
    repeat (apply Contributes_quiet_app; [assumption|]).
    apply Contributes_nil.
Qed.

Lemma Run_items items g :
  inv false false g ->
  Run (forOf items addInspectionItem) g
      (fun _ g' new =>
         inv false false g'
         /\ Contributes (map (fun item => Card (cardTitle item)) items) new).
Proof.
  revert g. induction items as [|item items IH]; intros g Hinv; simpl.
  - apply Run_ret. split; [done|apply Contributes_nil].
  - apply Run_bind.
    eapply Run_mono; [by apply Run_addInspectionItem|].
    intros _ g1 new1 [Hinv1 Hnew1]. cbv beta.
    eapply Run_mono; [by apply IH|].
    intros _ g2 new2 [Hinv2 Hnew2]. cbv beta.
    split; [done|].
    by apply (Contributes_app [Card (cardTitle item)]).
Qed.

(** An area: its heading, then its items. *)
Lemma Run_addAreaSection area g :
  inv false false g ->
  Run (addAreaSection area) g
      (fun _ g' new => inv false false g' /\ Contributes (areaOutline area) new).
Proof.
  intros Hinv. unfold addAreaSection. cbv zeta.
  rewrite !font_choice.
  unfold setEnglishFont, setArabicFont, getY.
  do 2 run_quietly.
  do 4 run_exact.
  settle false false.
  do 6 run_quietly.
  eapply Run_mono; [by apply Run_items|].
  intros _ gLast newItems [HinvLast Hnew]. cbv beta.
  split; [done|].
  cbn [app jsPDF.text styleOf pdf jsPDF.state jsPDF.fontSize jsPDF.font
       jsPDF.fontStyle jsPDF.textColor jsPDF.setTextColor jsPDF.setFontSize].
  repeat (apply Contributes_quiet_app; [assumption|]).
  unfold areaOutline. apply Contributes_heading.
  repeat (apply Contributes_quiet_app; [assumption|]).
  exact Hnew.
Qed.

Lemma Run_areas areas g :
  inv false false g ->
  Run (forOf areas (fun area =>
         when (bool_decide (InspectionArea.items area <> [])) (addAreaSection area)))
      g
      (fun _ g' new =>
         inv false false g'
         /\ Contributes
              (flat_map areaOutline
                 (filter (fun area => InspectionArea.items area <> []) areas))
              new).
Proof.
  revert g. induction areas as [|area areas IH]; intros g Hinv; simpl.
  - apply Run_ret. split; [done|apply Contributes_nil].
  - apply Run_bind. rewrite filter_cons.
    destruct (decide (InspectionArea.items area <> [])) as [Hitems|Hnone].
    + rewrite bool_decide_eq_true_2 by done. simpl.
      eapply Run_mono; [by apply Run_addAreaSection|].
      intros _ g1 new1 [Hinv1 Hnew1]. cbv beta.
      eapply Run_mono; [by apply IH|].
      intros _ g2 new2 [Hinv2 Hnew2]. cbv beta.
      split; [done|].
      exact (Contributes_app (areaOutline area) _ new1 new2 Hnew1 Hnew2).
    + rewrite bool_decide_eq_false_2 by done. simpl.
      apply Run_ret.
      eapply Run_mono; [by apply IH|].
      intros _ g2 new2 [Hinv2 Hnew2]. by cbv beta.
Qed.

Lemma Quiet_addSectionHeader englishTitle arabicTitle :
  Quiet (inv false false) (inv true true) (addSectionHeader englishTitle arabicTitle).
Proof. unfold addSectionHeader. quiet_block. Qed.

Lemma inv_of_watermarkOk g : watermarkOk g -> inv false false g.
Proof. intros Hw. split; [done|]. by split. Qed.

Hint Resolve Quiet_addSectionHeader : quiet.

(** C5, as amended: the findings section holds, in the stored order, one
    heading for every area that has at least one item, each followed by
    one card per item of that area, and no other heading or card; an area
    without items is left out. *)
Theorem findings_outline (inspection : InspectionData.t) (g : t) :
  watermarkOk g ->
  exists g' new,
    addInspectionDetails inspection g = Some (tt, g')
    /\ drawn g' = drawn g ++ new
    /\ outline new = outlineOfAreasWithItems inspection.
Proof.
  intros Hw. apply inv_of_watermarkOk in Hw.
  cut (Run (addInspectionDetails inspection) g
           (fun _ _ new => Contributes (outlineOfAreasWithItems inspection) new)).
  { intros ([] & g' & new & Hrun & Hd & Hc). exists g', new.
    split; [done|]. split; [done|]. by apply Contributes_outline. }
  unfold addInspectionDetails.
  do 2 run_quietly.
  lazymatch goal with
  | H : inv true true ?g0 |- _ =>
      pose proof (inv_weaken false false true true g0 eq_refl eq_refl H) as Hinv
  end.
  destruct (decide (InspectionData.areas inspection <> [])) as [Hareas|Hnone].
  - rewrite bool_decide_eq_true_2 by done.
    eapply Run_mono; [by apply Run_areas|].
    intros _ gLast newAreas [_ Hnew]. cbv beta.
    by repeat (apply Contributes_quiet_app; [assumption|]).
  - rewrite bool_decide_eq_false_2 by done.
    assert (InspectionData.areas inspection = []) as Hempty.
    { destruct (InspectionData.areas inspection); [done|]. by destruct Hnone. }
    unfold outlineOfAreasWithItems. rewrite Hempty.
    eapply (Run_quiet (inv true true)); [quiet_block|eassumption|].
    intros _ gLast newText _ Hquiet.
    repeat (apply Contributes_quiet_app; [assumption|]).
    intros r. by rewrite outline_quiet_app.
Qed.

(** C6: for an inspection without areas the findings section is drawn
    without an exception, and the last thing drawn is the sentence that no
    items were recorded, in 10 point Helvetica at the left margin; nothing
    before it is a heading or a card. *)
Theorem findings_without_areas (inspection : InspectionData.t) (g : t) :
  InspectionData.areas inspection = [] ->
  watermarkOk g ->
  exists g' before y color,
    addInspectionDetails inspection g = Some (tt, g')
    /\ drawn g' = drawn g ++ before
                  ++ [jsPDF.Text [noItemsText] margins_left y jsPDF.noOptions
                                 jsPDF.helvetica jsPDF.normal 10 color]
    /\ Forall quiet before.
Proof.
  intros Hempty Hw. apply inv_of_watermarkOk in Hw.
  cut (Run (addInspectionDetails inspection) g
           (fun _ _ new =>
              exists before y color,
                new = before
                      ++ [jsPDF.Text [noItemsText] margins_left y jsPDF.noOptions
                                     jsPDF.helvetica jsPDF.normal 10 color]
                /\ Forall quiet before)).
  { intros ([] & g' & new & Hrun & Hd & before & y & color & -> & Hq).
    by exists g', before, y, color. }
  unfold addInspectionDetails. rewrite Hempty.
  rewrite bool_decide_eq_false_2 by (intros Hne; by apply Hne).
  unfold setEnglishFont, getY.
  do 2 run_quietly.
  do 5 run_exact.
  cbn [app].
  lazymatch goal with
  | |- exists _ _ _, ?a ++ ?b ++ [_] = _ /\ _ => exists (a ++ b)
  end.
  eexists _, _. split; [by rewrite <- app_assoc|by apply Forall_app].
Qed.

End Outline.

End ReportFacts.

(* ================================================================== *)
(** * Worked examples *)
(* ================================================================== *)

Module Examples.

(** ** A store *)

#[local] Instance example_dates : DateReader := readDateOnly.

Definition alice : Client.t :=
  Client.mk "client_1" "Alice" "alice@example.com" "100" "1 Palm Street"
    [Property.mk "prop_1" "Villa 7" Residential 250%float;
     Property.mk "prop_2" "Shop 3" Commercial 80%float].

Definition bob : Client.t :=
  Client.mk "client_2" "Bob" "bob@example.com" "200" "2 Date Street" [].

#[local] Instance example_mock : MockData := [alice].

Definition emptyStorage : localStorage.t := localStorage.mk None None None.

Definition inspectionOn (id date : string) (type : PropertyType) : InspectionData.t :=
  InspectionData.mk id "Client" "Somewhere" type "Inspector" date [] None.

Definition threeInspections : localStorage.t :=
  localStorage.mk
    (Some (Json [inspectionOn "a" "2024-01-10" Villa;
                 inspectionOn "b" "2024-03-01" Apartment;
                 inspectionOn "c" "2024-02-20" Villa]))
    None None.

Example threeInspections_listed :
  InspectionData.id <$> getInspections threeInspections = ["b"; "c"; "a"].
Proof. vm_compute. reflexivity. Qed.

Example threeInspections_villas :
  InspectionData.id
    <$> filteredInspections "Villa" (getInspections threeInspections)
  = ["c"; "a"].
Proof. vm_compute. reflexivity. Qed.

Definition threeListed : list InspectionData.t :=
  [inspectionOn "b" "2024-03-01" Apartment;
   inspectionOn "c" "2024-02-20" Villa;
   inspectionOn "a" "2024-01-10" Villa].

Lemma threeInspections_getInspections : getInspections threeInspections = threeListed.
Proof. vm_compute. reflexivity. Defined.

Lemma threeInspections_readable :
  Forall (readable InspectionData.inspectionDate) (getInspections threeInspections).
Proof.
  rewrite threeInspections_getInspections.
  repeat constructor; eexists; vm_compute; reflexivity.
Defined.

(** Deleting ["c"] from the three inspections leaves ["b"; "a"] listed. *)
Lemma delete_removes_only_that_record_witness :
  getInspections (deleteInspection "c" threeInspections)
  = filter (fun insp => InspectionData.id insp <> "c")
           (getInspections threeInspections).
Proof.
  exact (proj1 (proj2 (proj2 (proj2
           (delete_removes_only_that_record "c" threeInspections))))
           threeInspections_readable).
Defined.

(** The three inspections are listed newest first. *)
Lemma listings_order_witness :
  StronglySorted (newestFirst InspectionData.inspectionDate)
                 (getInspections threeInspections).
Proof.
  exact (proj1 (listings_order threeInspections) threeInspections_readable).
Defined.

Definition clientsStored (stored : list Client.t) : localStorage.t :=
  localStorage.mk None (Some (Json stored)) None.

(** C4 fails for the clients: they are listed as stored, so whatever is
    taken for the date of a client, as soon as it tells Alice from Bob one
    of the two stores below is listed oldest first. *)
Lemma clients_listed_as_stored :
  ~ exists date : Client.t -> Z,
      date alice <> date bob
      /\ forall s, StronglySorted (fun a b => date b <= date a) (getClients s).1.
Proof.
  intros (date & Hne & Hsorted).
  pose proof (Hsorted (clientsStored [alice; bob])) as H1.
  pose proof (Hsorted (clientsStored [bob; alice])) as H2.
  simpl in H1, H2.
  apply StronglySorted_inv in H1 as [_ H1]. apply Forall_cons in H1 as [H1 _].
  apply StronglySorted_inv in H2 as [_ H2]. apply Forall_cons in H2 as [H2 _].
  apply Hne. lia.
Qed.

(** C10 fails where it says that an empty list is returned only for text
    that does not parse: a stored empty array is returned as it is. *)
Lemma empty_array_is_returned :
  ~ forall s, (getClients s).1 = [] -> localStorage.clients s = Some Malformed.
Proof.
  intros H. specialize (H (clientsStored []) eq_refl). discriminate H.
Qed.

(** With the one-client mock list, an empty listing means unreadable text
    or a stored empty array. *)
Lemma getClients_absent_malformed_empty_witness :
  (getClients (clientsStored [])).1 = []
  /\ (localStorage.clients (clientsStored []) = Some Malformed
      \/ localStorage.clients (clientsStored []) = Some (Json [])).
Proof.
  split; [reflexivity|].
  apply (proj2 (proj2 (getClients_absent_malformed_empty (clientsStored []))));
    [discriminate|reflexivity].
Defined.

Example getClients_without_key :
  getClients emptyStorage = ([alice], clientsStored [alice]).
Proof. reflexivity. Qed.

(** ** An invoice *)

Definition oneLineInvoice : Invoice.t :=
  InvoiceForm.recomputeTotals
    (Invoice.mk "inv_1" "INV-000001" "2024-03-01" "2024-03-15"
       "client_1" "Alice" "1 Palm Street" "alice@example.com" "Villa 7"
       [InvoiceServiceItem.mk "svc_1" "Inspection" 2%float 3%float 6%float]
       0%float 0%float 0%float 1%float Unpaid None classic).

Example oneLineInvoice_quantity :
  (fun inv => (Invoice.subtotal inv, Invoice.tax inv, Invoice.totalAmount inv,
               InvoiceForm.balanceDue inv))
    <$> InvoiceForm.step (InvoiceForm.QuantityInput 0 4%float) oneLineInvoice
  = Some (12, 0.60000000000000009, 12.6, 11.6)%float.
Proof. vm_compute. reflexivity. Qed.

(** Typing the quantity 4 into the only line of the invoice. *)
Lemma invoice_totals_after_service_event_witness :
  exists invoice',
    InvoiceForm.step (InvoiceForm.QuantityInput 0 4%float) oneLineInvoice
    = Some invoice'
    /\ Forall InvoiceFormFacts.lineTotalOk (Invoice.services invoice')
    /\ Invoice.subtotal invoice'
       = InvoiceFormFacts.sumOfTotals (Invoice.services invoice')
    /\ Invoice.tax invoice' = (Invoice.subtotal invoice' * 0.05)%float
    /\ Invoice.totalAmount invoice'
       = (Invoice.subtotal invoice' + Invoice.tax invoice')%float
    /\ InvoiceForm.balanceDue invoice'
       = (Invoice.totalAmount invoice' - Invoice.amountPaid invoice')%float.
Proof.
  apply (InvoiceFormFacts.invoice_totals_after_service_event
           oneLineInvoice (InvoiceForm.QuantityInput 0 4%float)).
  - repeat constructor.
  - simpl. lia.
Defined.

Example select_shop :
  (fun line => (InvoiceServiceItem.quantity line, InvoiceServiceItem.unitPrice line,
                InvoiceServiceItem.total line))
    <$> Invoice.services
          (InvoiceForm.handlePropertySelect 5
             (Property.mk "prop_2" "Shop 3" Commercial 80%float) oneLineInvoice)
  = [(80, 2, 160)%float].
Proof. vm_compute. reflexivity. Qed.

(** ** A summary that could not be generated *)

#[local] Instance service_down : TextService := fun _ => None.

Lemma failed_summary_is_stored_witness :
  let inspection := inspectionOn "a" "2024-01-10" Villa in
  let updated := InspectionData.set_aiSummary (Some summaryErrorText) inspection in
  handleGenerateSummary (Some inspection) emptyStorage
  = (Some updated, saveInspection updated emptyStorage)
  /\ InspectionData.aiSummary updated = Some summaryErrorText
  /\ summaryErrorText <> ""
  /\ getInspectionById "a" (saveInspection updated emptyStorage) = Some updated
  /\ hasSummary updated = true
  /\ executiveSummary updated = (false, StoredSummary summaryErrorText).
Proof.
  exact (failed_summary_is_stored (inspectionOn "a" "2024-01-10" Villa)
           emptyStorage eq_refl).
Defined.

(** ** A report *)

(** An A4 page in millimetres, a fixed-pitch font that never wraps, and
    images that decode unless they are empty. *)
#[local] Instance a4 : WaslaReportGenerator.Surface := {|
  WaslaReportGenerator.pageWidth := 210%float;
  WaslaReportGenerator.pageHeight := 297%float;
  WaslaReportGenerator.splitTextToSize := fun _ _ _ text _ => [text];
  WaslaReportGenerator.getTextWidth :=
    fun _ _ size text => (size * 0.2 * number (String.length text))%float;
  WaslaReportGenerator.decodes := fun data => bool_decide (data <> "")
|}.

Definition newGenerator : WaslaReportGenerator.t :=
  WaslaReportGenerator.create None (Some "iVBORw0KGgo=").

(** What [addInspectionDetails] draws for an inspection, on a generator
    that has drawn nothing yet. *)
Definition findingsOf (inspection : InspectionData.t) : option (list jsPDF.Drawing) :=
  match WaslaReportGenerator.addInspectionDetails inspection newGenerator with
  | Some (_, g) => Some (ReportFacts.drawn g)
  | None => None
  end.

Definition sink : InspectionItem.t :=
  InspectionItem.mk 1 "Plumbing" "Sink" Fail "Leak" "" [].

Definition withAreas (areas : list InspectionArea.t) : InspectionData.t :=
  InspectionData.mk "insp_1" "Alice" "Villa 7" Villa "Inspector" "2024-03-01"
    areas None.

Example kitchen_with_sink :
  outline <$> findingsOf (withAreas [InspectionArea.mk 1 "Kitchen" [sink]])
  = Some [Heading ["Kitchen"]; Card ["Sink"]].
Proof. vm_compute. reflexivity. Qed.

(** C5 fails for an area without items, such as the one a new inspection
    starts with: the findings hold no heading for it. *)
Lemma empty_area_has_no_heading :
  let inspection := withAreas [InspectionArea.mk 1 "General" []] in
  outline <$> findingsOf inspection = Some []
  /\ outlineOfAllAreas inspection = [Heading ["General"]]
  /\ outline <$> findingsOf inspection <> Some (outlineOfAllAreas inspection).
Proof. repeat split; vm_compute; (reflexivity || discriminate). Qed.

Lemma newGenerator_watermarkOk : ReportFacts.watermarkOk newGenerator.
Proof. reflexivity. Defined.

Lemma findings_outline_witness :
  let inspection :=
    withAreas [InspectionArea.mk 1 "General" [];
               InspectionArea.mk 2 "Kitchen" [sink]] in
  exists g' new,
    WaslaReportGenerator.addInspectionDetails inspection newGenerator = Some (tt, g')
    /\ ReportFacts.drawn g' = ReportFacts.drawn newGenerator ++ new
    /\ outline new = outlineOfAreasWithItems inspection.
Proof.
  exact (ReportFacts.findings_outline
           (withAreas [InspectionArea.mk 1 "General" [];
                       InspectionArea.mk 2 "Kitchen" [sink]])
           newGenerator newGenerator_watermarkOk).
Defined.

Lemma findings_without_areas_witness :
  exists g' before y color,
    WaslaReportGenerator.addInspectionDetails (withAreas []) newGenerator
    = Some (tt, g')
    /\ ReportFacts.drawn g'
       = ReportFacts.drawn newGenerator ++ before
         ++ [jsPDF.Text [WaslaReportGenerator.noItemsText]
                        WaslaReportGenerator.margins_left y jsPDF.noOptions
                        jsPDF.helvetica jsPDF.normal 10 color]
    /\ Forall ReportFacts.quiet before.
Proof.
  exact (ReportFacts.findings_without_areas (withAreas []) newGenerator
           eq_refl newGenerator_watermarkOk).
Defined.

End Examples.
